(** * gibberish-scorer: the trigram engine (src/trigram/TrigramMatrix.ts)

    A shallow embedding of the [TrigramMatrix] class and of the data types of
    [src/index.ts], followed by the properties the specification states about
    training, scoring, cut-off calibration and classification.

    Conventions of the embedding.
    - A JavaScript [number] that holds a score is an exact rational ([Q]);
      a count is an integer ([Z]), so that "non-negative" is a statement and
      not a typing fact.  Rounding of doubles is not modelled.
    - A JavaScript string is a [string] of 8-bit characters; [charCodeAt] is
      [nat_of_ascii].
    - An object mutated in place is threaded explicitly: a method returns
      the object after the call.
    - An optional argument or option field is an [option]; [None] is
      [undefined], where the default of the parameter applies. *)

From Stdlib Require Import ZArith QArith Lia Lqa String Ascii.
From stdpp Require Import base option list gmap strings.

Local Open Scope Z_scope.

(** ** Numbers *)

(** [x < y] on two scores. *)
Definition number_lt (x y : Q) : bool :=
  match (x ?= y)%Q with
  | Lt => true
  | _ => false
  end.

(** ** Data types of src/index.ts *)

Record CutoffScore := mkCutoffScore {
  strict : Q;
  avg : Q;
  loose : Q
}.

Inductive CutoffScoreStrictness := Strict | Avg | Loose.

#[global] Instance CutoffScoreStrictness_eq_dec : EqDecision CutoffScoreStrictness.
Proof. solve_decision. Defined.

Module NGramMatrixOptions.
Record t := mk {
  initialTrainingText : option string;
  goodSamples : option (list string);
  badSamples : option (list string);
  ignoreCase : option bool;
  additionalCharsToInclude : option string
}.
End NGramMatrixOptions.

(** One entry of the word-by-word analysis, [{ word, score }]. *)
Record WordAndScore := mkWordAndScore {
  word : string;
  score : Q
}.

Record WordByWordAnalysis := mkWordByWordAnalysis {
  numWords : nat;
  numGibberishWords : nat;
  words : list WordAndScore;
  gibberishWords : list WordAndScore;
  cutoffs : CutoffScore
}.

(** ** Data types of src/trigram/TrigramMatrix.ts *)

Record TrigramMatrixLayer := mkTrigramMatrixLayer {
  countLayer : list (list Z);
  layerTotal : Z
}.

Record TrigramMatrix := mkTrigramMatrix {
  alphaSize : nat;
  charsToInclude : string;
  trigramMatrix : list TrigramMatrixLayer;
  cutoffScores : CutoffScore;
  charCodeMap : gmap nat nat;
  savedGoodSamples : list string;
  savedBadSamples : list string;
  ignoreCase : bool
}.

(** ** What the class imports

    [TrigramMatrix.ts] imports constants from [../utils/constants] and
    [../data/harry-potter-1] and functions from [../utils/helpers] and
    [./trigramHelpers].  The class is embedded over this interface, so that
    what is proved of its methods holds whatever the imported functions
    compute.  [trainTrigramMatrix] updates the matrix it is given in place;
    here it returns the updated matrix. *)
Class Imports := {
  DEFAULT_GOOD_SAMPLES : list string;
  DEFAULT_BAD_SAMPLES : list string;
  DEFAULT_CHARS_TO_INCLUDE : string;
  UPPERCASE_CHARS : string;
  DEFAULT_ALPHA_SIZE : nat;
  DEFAULT_CHAR_CODE_MAP : gmap nat nat;
  HARRY_POTTER_TRAINING_TEXT : string;
  getDefaultTrigramMatrixFromJSON : list TrigramMatrixLayer * CutoffScore;
  getCharCodeMap : string → gmap nat nat * nat * string;
  cleanAndExtractWordsFromTextToScore : string → bool → list string;
  createEmptyTrigramMatrix : nat → list TrigramMatrixLayer;
  trainTrigramMatrix :
    list TrigramMatrixLayer → string → gmap nat nat → string → bool →
    list TrigramMatrixLayer;
  runTextThroughTrigramMatrix :
    list TrigramMatrixLayer → string → gmap nat nat → bool → Q;
  getTrigramCutoffScores :
    list TrigramMatrixLayer → list string → list string → gmap nat nat →
    bool → CutoffScore
}.

(** ** The class TrigramMatrix *)

Section TrigramMatrixClass.
Context {imports : Imports}.

Definition set_trigramMatrix (m : list TrigramMatrixLayer) (this : TrigramMatrix) : TrigramMatrix :=
  {| alphaSize := alphaSize this;
     charsToInclude := charsToInclude this;
     trigramMatrix := m;
     cutoffScores := cutoffScores this;
     charCodeMap := charCodeMap this;
     savedGoodSamples := savedGoodSamples this;
     savedBadSamples := savedBadSamples this;
     ignoreCase := ignoreCase this |}.

Definition set_cutoffScores (c : CutoffScore) (this : TrigramMatrix) : TrigramMatrix :=
  {| alphaSize := alphaSize this;
     charsToInclude := charsToInclude this;
     trigramMatrix := trigramMatrix this;
     cutoffScores := c;
     charCodeMap := charCodeMap this;
     savedGoodSamples := savedGoodSamples this;
     savedBadSamples := savedBadSamples this;
     ignoreCase := ignoreCase this |}.

(** TrigramMatrix.ts:66-68.  Each parameter has its own default. *)
Definition recalibrateCutoffScores (this : TrigramMatrix)
    (goodSamples badSamples : option (list string)) : TrigramMatrix :=
  let goodSamples := default DEFAULT_GOOD_SAMPLES goodSamples in
  let badSamples := default DEFAULT_BAD_SAMPLES badSamples in
  set_cutoffScores
    (getTrigramCutoffScores (trigramMatrix this) goodSamples badSamples
       (charCodeMap this) (ignoreCase this))
    this.

(** TrigramMatrix.ts:53-56. *)
Definition train (this : TrigramMatrix) (trainingText : string) : TrigramMatrix :=
  let this :=
    set_trigramMatrix
      (trainTrigramMatrix (trigramMatrix this) trainingText (charCodeMap this)
         (charsToInclude this) (ignoreCase this))
      this in
  recalibrateCutoffScores this
    (Some (savedGoodSamples this)) (Some (savedBadSamples this)).

(** TrigramMatrix.ts:58-60. *)
Definition getScore (this : TrigramMatrix) (textToScore : string) : Q :=
  runTextThroughTrigramMatrix (trigramMatrix this) textToScore
    (charCodeMap this) (ignoreCase this).

(** TrigramMatrix.ts:62-64. *)
Definition getCutoffScores (this : TrigramMatrix) : CutoffScore :=
  cutoffScores this.

(** TrigramMatrix.ts:70-74. *)
Definition isGibberish (this : TrigramMatrix) (text : string)
    (strictness : option CutoffScoreStrictness) : bool :=
  let strictness := default Avg strictness in
  let cutoff :=
    if decide (strictness = Strict) then strict (cutoffScores this)
    else if decide (strictness = Avg) then avg (cutoffScores this)
    else loose (cutoffScores this) in
  number_lt (getScore this text) cutoff.

(** [{ word: wToken, score: this.getScore(wToken) }]. *)
Definition bundle (this : TrigramMatrix) (wToken : string) : WordAndScore :=
  {| word := wToken; score := getScore this wToken |}.

(** The body of the loop of TrigramMatrix.ts:89-93, on the two arrays
    [(gibberishWords, words)]. *)
Definition analyseToken (this : TrigramMatrix)
    (strictness : option CutoffScoreStrictness)
    (acc : list WordAndScore * list WordAndScore) (wToken : string) :
    list WordAndScore * list WordAndScore :=
  let wordAndScoreBundle := bundle this wToken in
  let gibberishWords :=
    if isGibberish this wToken strictness
    then acc.1 ++ [wordAndScoreBundle] else acc.1 in
  (gibberishWords, acc.2 ++ [wordAndScoreBundle]).

(** TrigramMatrix.ts:76-95. *)
Definition getWordByWordAnalysis (this : TrigramMatrix) (text : string)
    (strictness : option CutoffScoreStrictness) : WordByWordAnalysis :=
  let wordTokens := cleanAndExtractWordsFromTextToScore text (ignoreCase this) in
  let '(gibberishWords, words) :=
    foldl (analyseToken this strictness) ([], []) wordTokens in
  {| numWords := length wordTokens;
     numGibberishWords := length gibberishWords;
     words := words;
     gibberishWords := gibberishWords;
     cutoffs := cutoffScores this |}.

(** TrigramMatrix.ts:27-51.  When [this.train(initialTrainingText)] runs at
    line 46, the fields [cutoffScores], [savedGoodSamples], [savedBadSamples]
    and [ignoreCase] have not been assigned (lines 47-50).  [train] reads the
    last three: the helper gets [undefined] for the flag, which is falsy
    ([false] here), and [recalibrateCutoffScores] gets [undefined] twice, for
    which its parameter defaults apply (the default samples here).  The
    triple [train] stores is overwritten at line 47, so the value of
    [cutoffScores] before the call is never read. *)
Definition new (options : option NGramMatrixOptions.t) : TrigramMatrix :=
  match options with
  | None =>
      let '(trigramMatrix, cutoffScores) := getDefaultTrigramMatrixFromJSON in
      {| alphaSize := DEFAULT_ALPHA_SIZE;
         charsToInclude := DEFAULT_CHARS_TO_INCLUDE;
         trigramMatrix := trigramMatrix;
         cutoffScores := cutoffScores;
         charCodeMap := DEFAULT_CHAR_CODE_MAP;
         savedGoodSamples := DEFAULT_GOOD_SAMPLES;
         savedBadSamples := DEFAULT_BAD_SAMPLES;
         ignoreCase := true |}
  | Some options =>
      let initialTrainingText :=
        default HARRY_POTTER_TRAINING_TEXT (NGramMatrixOptions.initialTrainingText options) in
      let goodSamples :=
        default DEFAULT_GOOD_SAMPLES (NGramMatrixOptions.goodSamples options) in
      let badSamples :=
        default DEFAULT_BAD_SAMPLES (NGramMatrixOptions.badSamples options) in
      let ignoreCase := default true (NGramMatrixOptions.ignoreCase options) in
      let additionalCharsToInclude :=
        default EmptyString (NGramMatrixOptions.additionalCharsToInclude options) in
      let '(charCodeMap, uniqueChars, noDuplicateCharsStr) :=
        getCharCodeMap
          (DEFAULT_CHARS_TO_INCLUDE +:+ additionalCharsToInclude +:+
             (if negb ignoreCase then UPPERCASE_CHARS else EmptyString)) in
      let this :=
        {| alphaSize := uniqueChars;
           charsToInclude := noDuplicateCharsStr;
           trigramMatrix := createEmptyTrigramMatrix uniqueChars;
           cutoffScores := mkCutoffScore 0 0 0;
           charCodeMap := charCodeMap;
           savedGoodSamples := DEFAULT_GOOD_SAMPLES;
           savedBadSamples := DEFAULT_BAD_SAMPLES;
           ignoreCase := false |} in
      let this := train this initialTrainingText in
      {| alphaSize := uniqueChars;
         charsToInclude := noDuplicateCharsStr;
         trigramMatrix := trigramMatrix this;
         cutoffScores :=
           getTrigramCutoffScores (trigramMatrix this) goodSamples badSamples
             charCodeMap ignoreCase;
         charCodeMap := charCodeMap;
         savedGoodSamples := goodSamples;
         savedBadSamples := badSamples;
         ignoreCase := ignoreCase |}
  end.

End TrigramMatrixClass.

(** ** The imported helpers, modelled from the specification *)

Module helpers.

(** Modelled from the spec: [../utils/helpers] is not among the source
    files; section 4.3 has "if ignoreCase, fold text to one case before
    indexing".  The fold is to lower case (section 3: the default alphabet
    is the lowercase letters and the space), on the letters A-Z. *)
Definition toLowerCaseChar (c : ascii) : ascii :=
  let n := nat_of_ascii c in
  if decide (65 ≤ n ≤ 90)%nat then ascii_of_nat (n + 32) else c.

(** Modelled from the spec: the case fold of a whole text (section 4.3),
    character by character. *)
Fixpoint toLowerCase (s : string) : string :=
  match s with
  | EmptyString => EmptyString
  | String c s => String (toLowerCaseChar c) (toLowerCase s)
  end.

(** Modelled from the spec: the preprocessing of trainer and scorer
    (sections 4.3 and 4.4), which folds the case only when [ignoreCase]. *)
Definition foldCase (text : string) (ignoreCase : bool) : string :=
  if ignoreCase then toLowerCase text else text.

(** Modelled from the spec: [getCharCodeMap] of [../utils/helpers] is not
    among the source files; section 4.1: every character of the inclusion
    string gets a dense index in first-occurrence order, duplicates are
    dropped, and the function also gives the number of unique characters
    and the string without duplicates. *)
Fixpoint getCharCodeMap_loop (chars : string) (charCodeMap : gmap nat nat)
    (uniqueChars : nat) (noDuplicateCharsStr : string) :
    gmap nat nat * nat * string :=
  match chars with
  | EmptyString => (charCodeMap, uniqueChars, noDuplicateCharsStr)
  | String c chars =>
      match charCodeMap !! nat_of_ascii c with
      | Some _ =>
          getCharCodeMap_loop chars charCodeMap uniqueChars noDuplicateCharsStr
      | None =>
          getCharCodeMap_loop chars
            (<[nat_of_ascii c := uniqueChars]> charCodeMap)
            (S uniqueChars)
            (noDuplicateCharsStr +:+ String c EmptyString)
      end
  end.

(** Modelled from the spec: [getCharCodeMap] (section 4.1) starts from the
    empty map. *)
Definition getCharCodeMap (chars : string) : gmap nat nat * nat * string :=
  getCharCodeMap_loop chars ∅ 0%nat EmptyString.

End helpers.

Module trigramHelpers.

(** Modelled from the spec: [createEmptyTrigramMatrix] of [./trigramHelpers]
    is not among the source files; section 4.2: [alphaSize] layers, each an
    [alphaSize] by [alphaSize] table of zeros with total zero. *)
Definition createEmptyTrigramMatrix (alphaSize : nat) : list TrigramMatrixLayer :=
  replicate alphaSize
    {| countLayer := replicate alphaSize (replicate alphaSize 0);
       layerTotal := 0 |}.

(** Modelled from the spec: the update of [trainTrigramMatrix] for one
    window (section 4.3),
    [trigramMatrix[a].countLayer[b][c] += 1; trigramMatrix[a].layerTotal += 1].
    An index outside the table leaves it as it is; the tables of an instance
    are as large as its alphabet, so the case does not arise there. *)
Definition incrementTrigram (trigramMatrix : list TrigramMatrixLayer)
    (w : nat * nat * nat) : list TrigramMatrixLayer :=
  let '(a, b, c) := w in
  alter
    (λ layer,
       {| countLayer := alter (alter Z.succ c) b (countLayer layer);
          layerTotal := layerTotal layer + 1 |})
    a trigramMatrix.

(** Modelled from the spec: the indices of a window, when all three
    characters are in the map (sections 4.3 and 4.4: "where all three map"). *)
Definition windowIndices (charCodeMap : gmap nat nat) (c1 c2 c3 : ascii) :
    option (nat * nat * nat) :=
  a ← charCodeMap !! nat_of_ascii c1;
  b ← charCodeMap !! nat_of_ascii c2;
  c ← charCodeMap !! nat_of_ascii c3;
  Some (a, b, c).

(** Modelled from the spec: one step of the scan of [trainTrigramMatrix]
    (section 4.3): a valid window is counted, any other is skipped. *)
Definition trainWindow (trigramMatrix : list TrigramMatrixLayer)
    (charCodeMap : gmap nat nat) (c1 c2 c3 : ascii) : list TrigramMatrixLayer :=
  match windowIndices charCodeMap c1 c2 c3 with
  | Some w => incrementTrigram trigramMatrix w
  | None => trigramMatrix
  end.

(** Modelled from the spec: the scan of [trainTrigramMatrix] (section 4.3),
    which moves the window on by one character whatever it held. *)
Fixpoint trainLoop (trigramMatrix : list TrigramMatrixLayer)
    (charCodeMap : gmap nat nat) (text : string) : list TrigramMatrixLayer :=
  match text with
  | EmptyString => trigramMatrix
  | String c1 rest =>
      match rest with
      | String c2 (String c3 _) =>
          trainLoop (trainWindow trigramMatrix charCodeMap c1 c2 c3) charCodeMap rest
      | _ => trigramMatrix
      end
  end.

(** Modelled from the spec: [trainTrigramMatrix] of [./trigramHelpers] is
    not among the source files; section 4.3: the text is case-folded when
    [ignoreCase], then every adjacent triple whose three characters are in
    the map adds 1 to cell [(idx c2, idx c3)] of layer [idx c1] and 1 to
    that layer's total; a window with a character outside the alphabet is
    skipped and the scan goes on. *)
Definition trainTrigramMatrix (trigramMatrix : list TrigramMatrixLayer)
    (trainingText : string) (charCodeMap : gmap nat nat)
    (charsToInclude : string) (ignoreCase : bool) : list TrigramMatrixLayer :=
  trainLoop trigramMatrix charCodeMap (helpers.foldCase trainingText ignoreCase).

(** [trigramMatrix[a].countLayer[b][c]], when the cell exists. *)
Definition cellAt (trigramMatrix : list TrigramMatrixLayer) (a b c : nat) : option Z :=
  layer ← trigramMatrix !! a;
  row ← countLayer layer !! b;
  row !! c.

Definition totalAt (trigramMatrix : list TrigramMatrixLayer) (a : nat) : option Z :=
  layerTotal <$> trigramMatrix !! a.

(** Modelled from the spec: the probability of one window in
    [runTextThroughTrigramMatrix] (section 4.4), [count / layerTotal], and
    zero when the layer total is zero. *)
Definition transitionProbability (trigramMatrix : list TrigramMatrixLayer)
    (w : nat * nat * nat) : Q :=
  let '(a, b, c) := w in
  let contextTotal := default 0 (totalAt trigramMatrix a) in
  if decide (contextTotal = 0) then 0%Q
  else (inject_Z (default 0%Z (cellAt trigramMatrix a b c)) / inject_Z contextTotal)%Q.

(** Modelled from the spec: the scan of [runTextThroughTrigramMatrix]
    (section 4.4), which adds up the probabilities of the valid windows and
    counts them. *)
Fixpoint scoreLoop (trigramMatrix : list TrigramMatrixLayer)
    (charCodeMap : gmap nat nat) (text : string)
    (totalProb : Q) (numWindows : nat) : Q * nat :=
  match text with
  | EmptyString => (totalProb, numWindows)
  | String c1 rest =>
      match rest with
      | String c2 (String c3 _) =>
          match windowIndices charCodeMap c1 c2 c3 with
          | Some w =>
              scoreLoop trigramMatrix charCodeMap rest
                (totalProb + transitionProbability trigramMatrix w)%Q
                (S numWindows)
          | None =>
              scoreLoop trigramMatrix charCodeMap rest totalProb numWindows
          end
      | _ => (totalProb, numWindows)
      end
  end.

(** Modelled from the spec: [runTextThroughTrigramMatrix] of
    [./trigramHelpers] is not among the source files; section 4.4: the
    same window as the trainer, the probabilities of the valid windows are
    added up and divided by their number; with no valid window the score is
    zero. *)
Definition runTextThroughTrigramMatrix (trigramMatrix : list TrigramMatrixLayer)
    (textToScore : string) (charCodeMap : gmap nat nat) (ignoreCase : bool) : Q :=
  let '(totalProb, numWindows) :=
    scoreLoop trigramMatrix charCodeMap
      (helpers.foldCase textToScore ignoreCase) 0%Q 0%nat in
  if decide (numWindows = 0%nat) then 0%Q
  else (totalProb / inject_Z (Z.of_nat numWindows))%Q.

(** Modelled from the spec: the sum of the scores of a sample set in
    [getTrigramCutoffScores] (section 4.5). *)
Definition sumScores (scores : list Q) : Q := foldl Qplus 0%Q scores.

(** Modelled from the spec: the average of a sample set in
    [getTrigramCutoffScores] (section 4.5), the sum of its scores over their
    number.  For the empty set the quotient has denominator zero, which [Q]
    makes zero (JavaScript: [NaN]). *)
Definition averageScore (scores : list Q) : Q :=
  (sumScores scores / inject_Z (Z.of_nat (length scores)))%Q.

(** Modelled from the spec: the triple of [getTrigramCutoffScores] for given
    averages (section 4.5); [avg] is the midpoint and [fraction] is the share
    of the distance from [avg] to [goodAvg] by which [strict] and [loose] are
    moved away from it.  The side on which each lies is that of the README:
    the triple it prints under "getCutoffScores" has [loose < avg < strict],
    and under "isGibberish" [Strict] classifies more text as gibberish, which
    with [score < cutoff] needs the larger cut-off; section 4.5 words the
    sides the other way round. *)
Definition cutoffsFromAverages (fraction goodAvg badAvg : Q) : CutoffScore :=
  let avg := ((goodAvg + badAvg) / 2)%Q in
  let distance := (fraction * (goodAvg - avg))%Q in
  {| strict := (avg + distance)%Q; avg := avg; loose := (avg - distance)%Q |}.

(** Modelled from the spec: [getTrigramCutoffScores] of [./trigramHelpers]
    is not among the source files; section 4.5: every sample is scored,
    [avg] is the midpoint of the two averages, [strict] lies a fraction of
    the distance from [avg] to [goodAvg] on the side of [goodAvg] and [loose]
    the same distance on the side of [badAvg] (the sides of the README, see
    [cutoffsFromAverages]).  The fraction is not given in the specification
    and is a parameter.  The function gets no previous
    triple (TrigramMatrix.ts:67), so it has none to fall back to. *)
Definition getTrigramCutoffScores (fraction : Q)
    (trigramMatrix : list TrigramMatrixLayer)
    (goodSamples badSamples : list string) (charCodeMap : gmap nat nat)
    (ignoreCase : bool) : CutoffScore :=
  let scoreOf sample :=
    runTextThroughTrigramMatrix trigramMatrix sample charCodeMap ignoreCase in
  cutoffsFromAverages fraction
    (averageScore (scoreOf <$> goodSamples))
    (averageScore (scoreOf <$> badSamples)).

End trigramHelpers.

(** The class over the modelled helpers: the helper functions of [I] are
    replaced; its constants, its snapshot and its tokenizer are kept. *)
Definition modelledImports (fraction : Q) (I : Imports) : Imports :=
  {| DEFAULT_GOOD_SAMPLES := DEFAULT_GOOD_SAMPLES;
     DEFAULT_BAD_SAMPLES := DEFAULT_BAD_SAMPLES;
     DEFAULT_CHARS_TO_INCLUDE := DEFAULT_CHARS_TO_INCLUDE;
     UPPERCASE_CHARS := UPPERCASE_CHARS;
     DEFAULT_ALPHA_SIZE := DEFAULT_ALPHA_SIZE;
     DEFAULT_CHAR_CODE_MAP := DEFAULT_CHAR_CODE_MAP;
     HARRY_POTTER_TRAINING_TEXT := HARRY_POTTER_TRAINING_TEXT;
     getDefaultTrigramMatrixFromJSON := getDefaultTrigramMatrixFromJSON;
     getCharCodeMap := helpers.getCharCodeMap;
     cleanAndExtractWordsFromTextToScore := cleanAndExtractWordsFromTextToScore;
     createEmptyTrigramMatrix := trigramHelpers.createEmptyTrigramMatrix;
     trainTrigramMatrix := trigramHelpers.trainTrigramMatrix;
     runTextThroughTrigramMatrix := trigramHelpers.runTextThroughTrigramMatrix;
     getTrigramCutoffScores := trigramHelpers.getTrigramCutoffScores fraction |}.

(** ** The notions the specification speaks in *)

(** The adjacent triples of a text, in order. *)
Fixpoint windows (text : string) : list (ascii * ascii * ascii) :=
  match text with
  | EmptyString => []
  | String c1 rest =>
      match rest with
      | String c2 (String c3 _) => (c1, c2, c3) :: windows rest
      | _ => []
      end
  end.

(** The index triples of the windows all of whose characters are mapped. *)
Definition validWindows (charCodeMap : gmap nat nat) (text : string) :
    list (nat * nat * nat) :=
  omap (λ '(c1, c2, c3), trigramHelpers.windowIndices charCodeMap c1 c2 c3)
    (windows text).

(** How many of the windows [ws] hit cell [(b, c)] of layer [a], and how many
    hit layer [a]. *)
Definition cellHits (ws : list (nat * nat * nat)) (a b c : nat) : Z :=
  Z.of_nat (length (filter (λ w, w = (a, b, c)) ws)).

Definition layerHits (ws : list (nat * nat * nat)) (a : nat) : Z :=
  Z.of_nat (length (filter (λ w, w.1.1 = a) ws)).

Definition arithmeticMean (values : list Q) : Q :=
  match values with
  | [] => 0%Q
  | _ => (foldr Qplus 0 values / inject_Z (Z.of_nat (length values)))%Q
  end.

Definition sumRow (row : list Z) : Z := foldr Z.add 0 row.

Definition sumCells (cells : list (list Z)) : Z :=
  foldr (λ row acc, sumRow row + acc) 0 cells.

(** The invariant of the count table (section 3). *)
Definition layerInvariant (layer : TrigramMatrixLayer) : Prop :=
  Forall (Forall (λ count, 0 ≤ count)) (countLayer layer) ∧
  layerTotal layer = sumCells (countLayer layer).

Definition countsInvariant (trigramMatrix : list TrigramMatrixLayer) : Prop :=
  Forall layerInvariant trigramMatrix.

#[global] Instance layerInvariant_dec layer : Decision (layerInvariant layer).
Proof. unfold layerInvariant. apply _. Defined.

#[global] Instance countsInvariant_dec trigramMatrix :
  Decision (countsInvariant trigramMatrix).
Proof. unfold countsInvariant. apply _. Defined.

(** A table for an alphabet of [n] characters, and a map into it. *)
Definition hasShape (n : nat) (trigramMatrix : list TrigramMatrixLayer) : Prop :=
  length trigramMatrix = n ∧
  Forall
    (λ layer,
       length (countLayer layer) = n ∧
       Forall (λ row, length row = n) (countLayer layer))
    trigramMatrix.

Definition mapsInto (n : nat) (charCodeMap : gmap nat nat) : Prop :=
  map_Forall (λ _ i, (i < n)%nat) charCodeMap.

(** What the constructor and [train] keep: the map fits the table, and the
    table has its shape and its invariant. *)
Definition instanceInvariant (this : TrigramMatrix) : Prop :=
  mapsInto (alphaSize this) (charCodeMap this) ∧
  hasShape (alphaSize this) (trigramMatrix this) ∧
  countsInvariant (trigramMatrix this).

(** The last two characters of a text (fewer when it is shorter) and the
    first two: the windows over their concatenation are the windows across
    the seam of two texts. *)
Fixpoint lastTwo (text : string) : string :=
  match text with
  | String _ (String _ (String _ _) as rest) => lastTwo rest
  | _ => text
  end.

Definition firstTwo (text : string) : string :=
  match text with
  | String c1 (String c2 _) => String c1 (String c2 EmptyString)
  | _ => text
  end.

Definition seamText (textA textB : string) : string :=
  lastTwo textA +:+ firstTwo textB.

(** The order in which a strictness level selects its cut-off. *)
Definition cutoffFor (c : CutoffScore) (strictness : CutoffScoreStrictness) : Q :=
  match strictness with
  | Strict => strict c
  | Avg => avg c
  | Loose => loose c
  end.

(** The triple the README prints for the shipped scorer under
    "getCutoffScores", and the score it prints under "getTextScoreAndCutoffs"
    for the text it classifies as gibberish at [Strict] and as legitimate at
    [Loose] under "isGibberish". *)
Definition documentedCutoffScores : CutoffScore :=
  {| loose := 0.017614231370230753;
     avg := 0.025681000339544513;
     strict := 0.033747769308858276 |}.

Definition documentedScore : Q := 0.029883897109006206.

(** ** A small instance, for evaluation

    An alphabet of the lowercase letters and the space (README, "Constructor"),
    one good and one bad default sample, a short default corpus, an all-zero
    snapshot, whitespace tokenisation, and the modelled helpers with the
    fraction one half. *)
Definition exampleAlphabet : string := "abcdefghijklmnopqrstuvwxyz ".

Definition exampleImports : Imports :=
  {| DEFAULT_GOOD_SAMPLES := ["hello world"%string];
     DEFAULT_BAD_SAMPLES := ["zzqx wvbk"%string];
     DEFAULT_CHARS_TO_INCLUDE := exampleAlphabet;
     UPPERCASE_CHARS := "ABCDEFGHIJKLMNOPQRSTUVWXYZ";
     DEFAULT_ALPHA_SIZE := 27;
     DEFAULT_CHAR_CODE_MAP := (helpers.getCharCodeMap exampleAlphabet).1.1;
     HARRY_POTTER_TRAINING_TEXT := "the boy who lived";
     getDefaultTrigramMatrixFromJSON :=
       (trigramHelpers.createEmptyTrigramMatrix 27, mkCutoffScore 0 0 0);
     getCharCodeMap := helpers.getCharCodeMap;
     cleanAndExtractWordsFromTextToScore :=
       λ text ignoreCase, String.words (helpers.foldCase text ignoreCase);
     createEmptyTrigramMatrix := trigramHelpers.createEmptyTrigramMatrix;
     trainTrigramMatrix := trigramHelpers.trainTrigramMatrix;
     runTextThroughTrigramMatrix := trigramHelpers.runTextThroughTrigramMatrix;
     getTrigramCutoffScores := trigramHelpers.getTrigramCutoffScores (1 # 2) |}.

(** An instance built by the constructor from a short corpus. *)
Definition exampleOptions : NGramMatrixOptions.t :=
  {| NGramMatrixOptions.initialTrainingText := Some "hello world hello there"%string;
     NGramMatrixOptions.goodSamples := Some ["hello"%string];
     NGramMatrixOptions.badSamples := Some ["zzqx"%string];
     NGramMatrixOptions.ignoreCase := None;
     NGramMatrixOptions.additionalCharsToInclude := None |}.

Definition exampleMatrix : TrigramMatrix :=
  @new exampleImports (Some exampleOptions).

(** ** Sequences of calls on an instance *)

(** A call of one of the two methods that change an instance. *)
Inductive call :=
  | CallTrain (trainingText : string)
  | CallRecalibrate (goodSamples badSamples : option (list string)).

(** The texts of the [train] calls of a sequence, in order. *)
Definition trainingTexts (calls : list call) : list string :=
  omap
    (λ c, match c with
          | CallTrain trainingText => Some trainingText
          | CallRecalibrate _ _ => None
          end)
    calls.

Section Calls.
Context {imports : Imports}.

Definition perform (this : TrigramMatrix) (c : call) : TrigramMatrix :=
  match c with
  | CallTrain trainingText => train this trainingText
  | CallRecalibrate goodSamples badSamples =>
      recalibrateCutoffScores this goodSamples badSamples
  end.

Definition performAll (this : TrigramMatrix) (calls : list call) : TrigramMatrix :=
  foldl perform this calls.

(** The sample sets against which a call calibrates. *)
Definition samplesOf (this : TrigramMatrix) (c : call) : list string * list string :=
  match c with
  | CallTrain _ => (savedGoodSamples this, savedBadSamples this)
  | CallRecalibrate goodSamples badSamples =>
      (default DEFAULT_GOOD_SAMPLES goodSamples,
       default DEFAULT_BAD_SAMPLES badSamples)
  end.

(** The stored triple is the calibration of the table against the saved
    samples. *)
Definition calibratedAgainstSaved (this : TrigramMatrix) : Prop :=
  cutoffScores this =
  getTrigramCutoffScores (trigramMatrix this)
    (savedGoodSamples this) (savedBadSamples this)
    (charCodeMap this) (ignoreCase this).

End Calls.

(** ** The facade of src/index.ts *)

(** [./bigram] is not among the source files: the class [BigramMatrix] is a
    type with its constructor and the methods of the interface [NGramMatrix]
    (index.ts:40-90). *)
Class BigramImports := {
  BigramMatrix : Type;
  BigramMatrix_new : option NGramMatrixOptions.t → BigramMatrix;
  BigramMatrix_train : BigramMatrix → string → BigramMatrix;
  BigramMatrix_getScore : BigramMatrix → string → Q;
  BigramMatrix_getCutoffScores : BigramMatrix → CutoffScore;
  BigramMatrix_recalibrateCutoffScores :
    BigramMatrix → option (list string) → option (list string) → BigramMatrix;
  BigramMatrix_isGibberish :
    BigramMatrix → string → option CutoffScoreStrictness → bool;
  BigramMatrix_getWordByWordAnalysis :
    BigramMatrix → string → option CutoffScoreStrictness → WordByWordAnalysis
}.

(** index.ts:40-90.  An object of the interface [NGramMatrix] is an instance
    of one of the two classes that implement it; a method call on it runs the
    method of that class (on the right-hand sides below, the methods of
    [TrigramMatrix] defined above). *)
Module NGramMatrix.
Section Interface.
Context {imports : Imports} {bigram : BigramImports}.

Inductive t :=
  | OfBigramMatrix (m : BigramMatrix)
  | OfTrigramMatrix (m : TrigramMatrix).

Definition train (m : t) (text : string) : t :=
  match m with
  | OfBigramMatrix m => OfBigramMatrix (BigramMatrix_train m text)
  | OfTrigramMatrix m => OfTrigramMatrix (train m text)
  end.

Definition getScore (m : t) (text : string) : Q :=
  match m with
  | OfBigramMatrix m => BigramMatrix_getScore m text
  | OfTrigramMatrix m => getScore m text
  end.

Definition getCutoffScores (m : t) : CutoffScore :=
  match m with
  | OfBigramMatrix m => BigramMatrix_getCutoffScores m
  | OfTrigramMatrix m => getCutoffScores m
  end.

Definition recalibrateCutoffScores (m : t)
    (goodSamples badSamples : option (list string)) : t :=
  match m with
  | OfBigramMatrix m =>
      OfBigramMatrix (BigramMatrix_recalibrateCutoffScores m goodSamples badSamples)
  | OfTrigramMatrix m =>
      OfTrigramMatrix (recalibrateCutoffScores m goodSamples badSamples)
  end.

Definition isGibberish (m : t) (text : string)
    (strictness : option CutoffScoreStrictness) : bool :=
  match m with
  | OfBigramMatrix m => BigramMatrix_isGibberish m text strictness
  | OfTrigramMatrix m => isGibberish m text strictness
  end.

Definition getWordByWordAnalysis (m : t) (text : string)
    (strictness : option CutoffScoreStrictness) : WordByWordAnalysis :=
  match m with
  | OfBigramMatrix m => BigramMatrix_getWordByWordAnalysis m text strictness
  | OfTrigramMatrix m => getWordByWordAnalysis m text strictness
  end.

End Interface.
End NGramMatrix.

(** index.ts:143-252, the class [TextScorer]. *)
Module TextScorer.
Section Facade.
Context {imports : Imports} {bigram : BigramImports}.

Record t := mk {
  NGramMatrix : NGramMatrix.t
}.

(** The result of [getTextScoreAndCutoffs], [{ cutoffs, score }]. *)
Record ScoreAndCutoffs := mkScoreAndCutoffs {
  cutoffs : CutoffScore;
  score : Q
}.

(** index.ts:174-176; [useBigram] defaults to [true]. *)
Definition new (useBigram : option bool) (options : option NGramMatrixOptions.t) : t :=
  let useBigram := default true useBigram in
  {| NGramMatrix :=
       if useBigram then NGramMatrix.OfBigramMatrix (BigramMatrix_new options)
       else NGramMatrix.OfTrigramMatrix (new options) |}.

(** index.ts:183. *)
Definition trainWithEnglishText (this : t) (text : string) : t :=
  {| NGramMatrix := NGramMatrix.train (NGramMatrix this) text |}.

(** index.ts:191; both sample sets are required here. *)
Definition recalibrateCutoffScores (this : t)
    (goodSamples badSamples : list string) : t :=
  {| NGramMatrix :=
       NGramMatrix.recalibrateCutoffScores (NGramMatrix this)
         (Some goodSamples) (Some badSamples) |}.

(** index.ts:201; the default [Avg] is applied here and the strictness is
    passed on. *)
Definition isGibberish (this : t) (text : string)
    (strictness : option CutoffScoreStrictness) : bool :=
  let strictness := default Avg strictness in
  NGramMatrix.isGibberish (NGramMatrix this) text (Some strictness).

(** index.ts:208. *)
Definition getTextScore (this : t) (text : string) : Q :=
  NGramMatrix.getScore (NGramMatrix this) text.

(** index.ts:214. *)
Definition getCutoffScores (this : t) : CutoffScore :=
  NGramMatrix.getCutoffScores (NGramMatrix this).

(** index.ts:221-225. *)
Definition getTextScoreAndCutoffs (this : t) (text : string) : ScoreAndCutoffs :=
  let cutoffScores := NGramMatrix.getCutoffScores (NGramMatrix this) in
  let matrixScore := NGramMatrix.getScore (NGramMatrix this) text in
  {| cutoffs := cutoffScores; score := matrixScore |}.

(** index.ts:240-251; the strictness is passed on as it was given. *)
Definition getDetailedWordInfo (this : t) (text : string)
    (strictness : option CutoffScoreStrictness) : WordByWordAnalysis :=
  NGramMatrix.getWordByWordAnalysis (NGramMatrix this) text strictness.

End Facade.
End TextScorer.

(** * Properties *)

(** ** Comparison of scores *)

Lemma number_lt_true (x y : Q) : number_lt x y = true ↔ (x < y)%Q.
Proof.
  unfold number_lt. rewrite Qlt_alt.
  destruct (x ?= y)%Q; split; congruence.
Qed.

Lemma number_lt_false (x y : Q) : number_lt x y = false ↔ (y <= x)%Q.
Proof.
  rewrite <- not_true_iff_false, number_lt_true. split.
  - apply Qnot_lt_le.
  - apply Qle_not_lt.
Qed.

(** ** The methods of the class, whatever the helpers compute *)

Section ClassProperties.
Context {imports : Imports}.

Lemma recalibrateCutoffScores_cutoffScores this goodSamples badSamples :
  cutoffScores (recalibrateCutoffScores this goodSamples badSamples) =
  getTrigramCutoffScores (trigramMatrix this)
    (default DEFAULT_GOOD_SAMPLES goodSamples)
    (default DEFAULT_BAD_SAMPLES badSamples)
    (charCodeMap this) (ignoreCase this).
Proof. reflexivity. Qed.

(** Recalibration assigns [cutoffScores] and nothing else: the samples it
    is given are not stored. *)
Lemma recalibrateCutoffScores_frame this goodSamples badSamples :
  let this' := recalibrateCutoffScores this goodSamples badSamples in
  trigramMatrix this' = trigramMatrix this ∧
  charCodeMap this' = charCodeMap this ∧
  charsToInclude this' = charsToInclude this ∧
  alphaSize this' = alphaSize this ∧
  ignoreCase this' = ignoreCase this ∧
  savedGoodSamples this' = savedGoodSamples this ∧
  savedBadSamples this' = savedBadSamples this.
Proof. repeat split. Qed.

Lemma train_trigramMatrix this trainingText :
  trigramMatrix (train this trainingText) =
  trainTrigramMatrix (trigramMatrix this) trainingText (charCodeMap this)
    (charsToInclude this) (ignoreCase this).
Proof. reflexivity. Qed.

Lemma train_frame this trainingText :
  let this' := train this trainingText in
  charCodeMap this' = charCodeMap this ∧
  charsToInclude this' = charsToInclude this ∧
  alphaSize this' = alphaSize this ∧
  ignoreCase this' = ignoreCase this ∧
  savedGoodSamples this' = savedGoodSamples this ∧
  savedBadSamples this' = savedBadSamples this.
Proof. repeat split. Qed.

(** The loop of [getWordByWordAnalysis] builds [words] by mapping and
    [gibberishWords] by filtering. *)
Lemma analyseToken_foldl this strictness wordTokens gibberishWords words :
  foldl (analyseToken this strictness) (gibberishWords, words) wordTokens =
  (gibberishWords ++
     filter (λ e, isGibberish this (word e) strictness = true)
       (bundle this <$> wordTokens),
   words ++ (bundle this <$> wordTokens)).
Proof.
  revert gibberishWords words.
  induction wordTokens as [|wToken wordTokens IH]; intros gibberishWords words.
  - cbn. by rewrite !app_nil_r.
  - cbn [foldl fmap list_fmap]. unfold analyseToken at 2. cbn [fst snd].
    rewrite IH. fold (bundle this wToken).
    rewrite filter_cons. cbn [word bundle].
    destruct (isGibberish this wToken strictness) eqn:Hg.
    + rewrite decide_True by done. by rewrite <- !app_assoc.
    + rewrite decide_False by done. by rewrite <- !app_assoc.
Qed.

Lemma train_after_recalibrate this goodSamples badSamples trainingText :
  train (recalibrateCutoffScores this goodSamples badSamples) trainingText =
  train this trainingText.
Proof. reflexivity. Qed.

Lemma new_saved_samples options :
  savedGoodSamples (new options) =
    default DEFAULT_GOOD_SAMPLES (options ≫= NGramMatrixOptions.goodSamples) ∧
  savedBadSamples (new options) =
    default DEFAULT_BAD_SAMPLES (options ≫= NGramMatrixOptions.badSamples).
Proof.
  destruct options as [options|]; cbn.
  - destruct (getCharCodeMap _) as [[? ?] ?]. by cbn.
  - destruct getDefaultTrigramMatrixFromJSON. by cbn.
Qed.

(** C2, as amended.  After [train(text)] the stored triple is the
    recalibration of the updated matrix against [savedGoodSamples] and
    [savedBadSamples]; these two fields are assigned by the constructor only
    (from its options, or the defaults), so a call of
    [recalibrateCutoffScores] before the training, whatever samples it was
    given, leaves no trace in the triple stored after it. *)
Theorem train_recalibrates_with_saved_samples this trainingText :
  cutoffScores (train this trainingText) =
    getTrigramCutoffScores (trigramMatrix (train this trainingText))
      (savedGoodSamples this) (savedBadSamples this)
      (charCodeMap this) (ignoreCase this) ∧
  trigramMatrix (train this trainingText) =
    trainTrigramMatrix (trigramMatrix this) trainingText (charCodeMap this)
      (charsToInclude this) (ignoreCase this) ∧
  (∀ goodSamples badSamples,
     let this' := recalibrateCutoffScores this goodSamples badSamples in
     savedGoodSamples this' = savedGoodSamples this ∧
     savedBadSamples this' = savedBadSamples this ∧
     cutoffScores (train this' trainingText) =
       cutoffScores (train this trainingText)) ∧
  (∀ options,
     savedGoodSamples (new options) =
       default DEFAULT_GOOD_SAMPLES (options ≫= NGramMatrixOptions.goodSamples) ∧
     savedBadSamples (new options) =
       default DEFAULT_BAD_SAMPLES (options ≫= NGramMatrixOptions.badSamples)).
Proof.
  split; [|split; [|split]].
  - unfold train. by rewrite recalibrateCutoffScores_cutoffScores.
  - apply train_trigramMatrix.
  - intros goodSamples badSamples this'. subst this'.
    by rewrite train_after_recalibrate.
  - apply new_saved_samples.
Qed.

(** The nested conditional of [isGibberish] selects the cut-off by
    strictness. *)
Lemma isGibberish_cutoffFor this text strictness :
  isGibberish this text (Some strictness) =
  number_lt (getScore this text) (cutoffFor (cutoffScores this) strictness).
Proof.
  unfold isGibberish. cbn [default].
  destruct strictness; repeat case_decide; done.
Qed.

(** C4.  [isGibberish(text, strictness)] is true exactly when
    [getScore(text)] is strictly below the cut-off the strictness selects
    ([strict], [avg] or [loose]); an omitted strictness is [Avg]; a score
    equal to the selected cut-off gives false. *)
Theorem isGibberish_iff_score_below_cutoff this text strictness :
  (isGibberish this text (Some strictness) = true ↔
     (getScore this text < cutoffFor (cutoffScores this) strictness)%Q) ∧
  isGibberish this text None = isGibberish this text (Some Avg) ∧
  ((getScore this text == cutoffFor (cutoffScores this) strictness)%Q →
     isGibberish this text (Some strictness) = false).
Proof.
  split; [|split].
  - rewrite isGibberish_cutoffFor. apply number_lt_true.
  - reflexivity.
  - intros Heq. rewrite isGibberish_cutoffFor. apply number_lt_false.
    rewrite Heq. apply Qle_refl.
Qed.

(** C5, as amended.  [recalibrateCutoffScores] always assigns to
    [cutoffScores] what [getTrigramCutoffScores] returns for the matrix, the
    two sample sets (the defaults for omitted ones), the map and the flag;
    the triple stored before plays no part in the result, also when a sample
    set is empty. *)
Theorem recalibrateCutoffScores_overwrites this goodSamples badSamples :
  cutoffScores (recalibrateCutoffScores this goodSamples badSamples) =
    getTrigramCutoffScores (trigramMatrix this)
      (default DEFAULT_GOOD_SAMPLES goodSamples)
      (default DEFAULT_BAD_SAMPLES badSamples)
      (charCodeMap this) (ignoreCase this) ∧
  (∀ previous,
     cutoffScores
       (recalibrateCutoffScores (set_cutoffScores previous this)
          goodSamples badSamples) =
     cutoffScores (recalibrateCutoffScores this goodSamples badSamples)).
Proof.
  split.
  - apply recalibrateCutoffScores_cutoffScores.
  - intros previous. by rewrite !recalibrateCutoffScores_cutoffScores.
Qed.

(** A text that is gibberish at one cut-off is gibberish at every cut-off
    that is at least as large. *)
Lemma isGibberish_monotone this text strictness1 strictness2 :
  (cutoffFor (cutoffScores this) strictness1 <=
   cutoffFor (cutoffScores this) strictness2)%Q →
  isGibberish this text (Some strictness1) = true →
  isGibberish this text (Some strictness2) = true.
Proof.
  intros Hle. rewrite !isGibberish_cutoffFor, !number_lt_true.
  intros Hlt. by eapply Qlt_le_trans.
Qed.

(** The README on the order of the triple: the printed triple has
    [loose < avg < strict], and an instance that holds it classifies a text
    with the printed score as gibberish at [Strict] and as legitimate at
    [Avg] and [Loose], as the README says of that text. *)
Remark documented_triple_and_classification this text :
  (loose documentedCutoffScores < avg documentedCutoffScores)%Q ∧
  (avg documentedCutoffScores < strict documentedCutoffScores)%Q ∧
  (cutoffScores this = documentedCutoffScores →
   (getScore this text == documentedScore)%Q →
   isGibberish this text (Some Strict) = true ∧
   isGibberish this text (Some Avg) = false ∧
   isGibberish this text (Some Loose) = false).
Proof.
  split; [reflexivity|]. split; [reflexivity|].
  intros Hcutoffs Hscore.
  unfold isGibberish. rewrite Hcutoffs. cbn [default].
  rewrite !decide_True by done.
  rewrite decide_False by done. rewrite decide_True by done.
  rewrite !decide_False by done.
  split; [|split].
  - apply number_lt_true. rewrite Hscore. reflexivity.
  - apply number_lt_false. rewrite Hscore. discriminate.
  - apply number_lt_false. rewrite Hscore. discriminate.
Qed.

(** C9.  With both arguments omitted, [recalibrateCutoffScores] calibrates
    against [DEFAULT_GOOD_SAMPLES] and [DEFAULT_BAD_SAMPLES]: whatever the
    fields [savedGoodSamples] and [savedBadSamples] hold, and so whatever
    samples the constructor was given, which it stores in those fields. *)
Theorem recalibrateCutoffScores_omitted_uses_defaults
    size chars matrix previous map savedGood savedBad flag options :
  cutoffScores
    (recalibrateCutoffScores
       (mkTrigramMatrix size chars matrix previous map savedGood savedBad flag)
       None None) =
    getTrigramCutoffScores matrix
      DEFAULT_GOOD_SAMPLES DEFAULT_BAD_SAMPLES map flag ∧
  (let this := new (Some options) in
   cutoffScores (recalibrateCutoffScores this None None) =
     getTrigramCutoffScores (trigramMatrix this)
       DEFAULT_GOOD_SAMPLES DEFAULT_BAD_SAMPLES
       (charCodeMap this) (ignoreCase this) ∧
   savedGoodSamples this =
     default DEFAULT_GOOD_SAMPLES (NGramMatrixOptions.goodSamples options) ∧
   savedBadSamples this =
     default DEFAULT_BAD_SAMPLES (NGramMatrixOptions.badSamples options)).
Proof.
  split; [reflexivity|].
  intros this. split; [apply recalibrateCutoffScores_cutoffScores|].
  apply (new_saved_samples (Some options)).
Qed.

(** C10.  In the result of [getWordByWordAnalysis(text, strictness)]:
    [numWords] is the length of [words] and [numGibberishWords] the length of
    [gibberishWords]; [words] pairs every token, in order, with its
    [getScore]; [gibberishWords] is the subsequence of [words] whose tokens
    [isGibberish] classifies as gibberish at the given strictness; [cutoffs]
    is the triple stored on the matrix. *)
Theorem getWordByWordAnalysis_correct this text strictness :
  let result := getWordByWordAnalysis this text strictness in
  let wordTokens := cleanAndExtractWordsFromTextToScore text (ignoreCase this) in
  numWords result = length (words result) ∧
  numGibberishWords result = length (gibberishWords result) ∧
  words result = (λ wToken, mkWordAndScore wToken (getScore this wToken)) <$> wordTokens ∧
  gibberishWords result =
    filter (λ e, isGibberish this (word e) strictness = true) (words result) ∧
  cutoffs result = getCutoffScores this.
Proof.
  intros result wordTokens. subst result.
  unfold getWordByWordAnalysis. fold wordTokens.
  rewrite analyseToken_foldl. cbn.
  repeat split. by rewrite length_fmap.
Qed.

End ClassProperties.

(** ** The trainer *)

Lemma windowIndices_Some charCodeMap c1 c2 c3 a b c :
  trigramHelpers.windowIndices charCodeMap c1 c2 c3 = Some (a, b, c) ↔
  charCodeMap !! nat_of_ascii c1 = Some a ∧
  charCodeMap !! nat_of_ascii c2 = Some b ∧
  charCodeMap !! nat_of_ascii c3 = Some c.
Proof.
  unfold trigramHelpers.windowIndices.
  destruct (charCodeMap !! nat_of_ascii c1) as [a'|]; cbn;
    [|split; [|intros (? & _)]; congruence].
  destruct (charCodeMap !! nat_of_ascii c2) as [b'|]; cbn;
    [|split; [|intros (_ & ? & _)]; congruence].
  destruct (charCodeMap !! nat_of_ascii c3) as [c'|]; cbn;
    [|split; [|intros (_ & _ & ?)]; congruence].
  split; [intros [= -> -> ->]; done | intros ([= ->] & [= ->] & [= ->]); done].
Qed.

Lemma windowIndices_None charCodeMap c1 c2 c3 :
  trigramHelpers.windowIndices charCodeMap c1 c2 c3 = None ↔
  charCodeMap !! nat_of_ascii c1 = None ∨
  charCodeMap !! nat_of_ascii c2 = None ∨
  charCodeMap !! nat_of_ascii c3 = None.
Proof.
  unfold trigramHelpers.windowIndices.
  destruct (charCodeMap !! nat_of_ascii c1) as [a'|]; cbn; [|by split; auto].
  destruct (charCodeMap !! nat_of_ascii c2) as [b'|]; cbn; [|by split; auto].
  destruct (charCodeMap !! nat_of_ascii c3) as [c'|]; cbn; [|by split; auto].
  split; [done | intros [?|[?|?]]; done].
Qed.

Lemma validWindows_cons charCodeMap c1 c2 c3 rest :
  validWindows charCodeMap (String c1 (String c2 (String c3 rest))) =
  match trigramHelpers.windowIndices charCodeMap c1 c2 c3 with
  | Some w => w :: validWindows charCodeMap (String c2 (String c3 rest))
  | None => validWindows charCodeMap (String c2 (String c3 rest))
  end.
Proof. reflexivity. Qed.

(** The scan of the trainer is a fold of the increment over the valid
    windows, in the order of the text. *)
Lemma trainLoop_foldl charCodeMap text trigramMatrix :
  trigramHelpers.trainLoop trigramMatrix charCodeMap text =
  foldl trigramHelpers.incrementTrigram trigramMatrix (validWindows charCodeMap text).
Proof.
  revert trigramMatrix.
  induction text as [|c1 rest IH]; intros trigramMatrix; [done|].
  destruct rest as [|c2 [|c3 rest]]; [reflexivity|reflexivity|].
  rewrite validWindows_cons.
  change (trigramHelpers.trainLoop trigramMatrix charCodeMap
            (String c1 (String c2 (String c3 rest))))
    with (trigramHelpers.trainLoop
            (trigramHelpers.trainWindow trigramMatrix charCodeMap c1 c2 c3)
            charCodeMap (String c2 (String c3 rest))).
  rewrite IH. unfold trigramHelpers.trainWindow.
  by destruct (trigramHelpers.windowIndices charCodeMap c1 c2 c3).
Qed.

Lemma totalAt_incrementTrigram trigramMatrix w a :
  trigramHelpers.totalAt (trigramHelpers.incrementTrigram trigramMatrix w) a =
  if decide (w.1.1 = a)
  then (λ n, n + 1) <$> trigramHelpers.totalAt trigramMatrix a
  else trigramHelpers.totalAt trigramMatrix a.
Proof.
  destruct w as [[a' b'] c']. unfold trigramHelpers.totalAt. cbn.
  rewrite list_lookup_alter. case_decide; [subst a'|done].
  by destruct (trigramMatrix !! a).
Qed.

Lemma cellAt_incrementTrigram trigramMatrix w a b c :
  trigramHelpers.cellAt (trigramHelpers.incrementTrigram trigramMatrix w) a b c =
  if decide (w = (a, b, c))
  then Z.succ <$> trigramHelpers.cellAt trigramMatrix a b c
  else trigramHelpers.cellAt trigramMatrix a b c.
Proof.
  destruct w as [[a' b'] c']. unfold trigramHelpers.cellAt. cbn.
  rewrite list_lookup_alter.
  destruct (decide (a' = a)) as [->|Ha]; [|by rewrite decide_False by congruence].
  destruct (trigramMatrix !! a) as [layer|]; cbn; [|by case_decide].
  rewrite list_lookup_alter.
  destruct (decide (b' = b)) as [->|Hb]; [|by rewrite decide_False by congruence].
  destruct (countLayer layer !! b) as [row|]; cbn; [|by case_decide].
  rewrite list_lookup_alter.
  destruct (decide (c' = c)) as [->|Hc]; [|by rewrite decide_False by congruence].
  by rewrite decide_True.
Qed.

Lemma cellHits_cons w ws a b c :
  cellHits (w :: ws) a b c =
  (if decide (w = (a, b, c)) then 1 else 0) + cellHits ws a b c.
Proof.
  unfold cellHits. rewrite filter_cons. case_decide; cbn [length]; lia.
Qed.

Lemma layerHits_cons w ws a :
  layerHits (w :: ws) a =
  (if decide (w.1.1 = a) then 1 else 0) + layerHits ws a.
Proof.
  unfold layerHits. rewrite filter_cons. case_decide; cbn [length]; lia.
Qed.

Lemma cellHits_nonneg ws a b c : 0 ≤ cellHits ws a b c.
Proof. unfold cellHits. lia. Qed.

Lemma cellAt_foldl_incrementTrigram ws trigramMatrix a b c :
  trigramHelpers.cellAt (foldl trigramHelpers.incrementTrigram trigramMatrix ws) a b c =
  (λ n, n + cellHits ws a b c) <$> trigramHelpers.cellAt trigramMatrix a b c.
Proof.
  revert trigramMatrix. induction ws as [|w ws IH]; intros trigramMatrix.
  - cbn [foldl]. destruct (trigramHelpers.cellAt _ _ _ _); cbn; f_equal.
    unfold cellHits; cbn; lia.
  - cbn [foldl]. rewrite IH, cellAt_incrementTrigram, cellHits_cons.
    case_decide; destruct (trigramHelpers.cellAt trigramMatrix a b c);
      cbn; f_equal; lia.
Qed.

Lemma totalAt_foldl_incrementTrigram ws trigramMatrix a :
  trigramHelpers.totalAt (foldl trigramHelpers.incrementTrigram trigramMatrix ws) a =
  (λ n, n + layerHits ws a) <$> trigramHelpers.totalAt trigramMatrix a.
Proof.
  revert trigramMatrix. induction ws as [|w ws IH]; intros trigramMatrix.
  - cbn [foldl]. destruct (trigramHelpers.totalAt _ _); cbn; f_equal.
    unfold layerHits; cbn; lia.
  - cbn [foldl]. rewrite IH, totalAt_incrementTrigram, layerHits_cons.
    case_decide; destruct (trigramHelpers.totalAt trigramMatrix a);
      cbn; f_equal; lia.
Qed.

(** Increments commute, so the order in which windows are counted does not
    matter for the table. *)
Lemma alter_alter_commute {A} (f g : A → A) (i j : nat) (l : list A) :
  (∀ x, f (g x) = g (f x)) →
  alter f i (alter g j l) = alter g j (alter f i l).
Proof.
  intros Hfg. destruct (decide (i = j)) as [->|Hij].
  - rewrite !list_alter_alter_eq. apply list_alter_ext; [|done].
    intros x _. apply Hfg.
  - by apply list_alter_alter_ne.
Qed.

Lemma incrementTrigram_commute trigramMatrix w1 w2 :
  trigramHelpers.incrementTrigram (trigramHelpers.incrementTrigram trigramMatrix w1) w2 =
  trigramHelpers.incrementTrigram (trigramHelpers.incrementTrigram trigramMatrix w2) w1.
Proof.
  destruct w1 as [[a1 b1] c1], w2 as [[a2 b2] c2].
  unfold trigramHelpers.incrementTrigram.
  apply alter_alter_commute. intros layer. cbn. f_equal.
  apply alter_alter_commute. intros row.
  by apply alter_alter_commute.
Qed.

Lemma foldl_incrementTrigram_commute_one ws w trigramMatrix :
  foldl trigramHelpers.incrementTrigram
    (trigramHelpers.incrementTrigram trigramMatrix w) ws =
  trigramHelpers.incrementTrigram
    (foldl trigramHelpers.incrementTrigram trigramMatrix ws) w.
Proof.
  revert trigramMatrix. induction ws as [|w' ws IH]; intros trigramMatrix; [done|].
  cbn [foldl]. by rewrite incrementTrigram_commute, IH.
Qed.

Lemma foldl_incrementTrigram_commute ws1 ws2 trigramMatrix :
  foldl trigramHelpers.incrementTrigram
    (foldl trigramHelpers.incrementTrigram trigramMatrix ws1) ws2 =
  foldl trigramHelpers.incrementTrigram
    (foldl trigramHelpers.incrementTrigram trigramMatrix ws2) ws1.
Proof.
  revert trigramMatrix. induction ws1 as [|w ws1 IH]; intros trigramMatrix; [done|].
  cbn [foldl]. by rewrite IH, foldl_incrementTrigram_commute_one.
Qed.

(** ** Windows of a concatenation *)

Lemma windows_short c1 c2 : windows (String c1 (String c2 EmptyString)) = [].
Proof. reflexivity. Qed.

Lemma windows_firstTwo text : windows (firstTwo text) = [].
Proof. by destruct text as [|c1 [|c2 text]]. Qed.

Lemma windows_one_app c text :
  windows (String c text) =
  windows (String c (firstTwo text)) ++ windows text.
Proof.
  destruct text as [|c1 [|c2 text]]; [done..|].
  cbn [firstTwo]. by destruct text.
Qed.

Lemma append_empty text : EmptyString +:+ text = text.
Proof. reflexivity. Qed.

Lemma append_String c textA textB :
  String c textA +:+ textB = String c (textA +:+ textB).
Proof. reflexivity. Qed.

Lemma windows_append textA textB :
  windows (textA +:+ textB) =
  windows textA ++ windows (seamText textA textB) ++ windows textB.
Proof.
  unfold seamText.
  induction textA as [|c1 rest IH].
  - cbn [lastTwo windows app]. by rewrite !append_empty, windows_firstTwo.
  - destruct rest as [|c2 [|c3 rest]].
    + cbn [lastTwo windows app]. rewrite !append_String, !append_empty.
      apply windows_one_app.
    + cbn [lastTwo]. rewrite windows_short. cbn [app].
      rewrite !append_String, !append_empty.
      destruct textB as [|d1 textB]; [done|].
      change (windows (String c1 (String c2 (String d1 textB))))
        with ((c1, c2, d1) :: windows (String c2 (String d1 textB))).
      rewrite windows_one_app. cbn [firstTwo].
      by destruct textB as [|d2 textB].
    + change (lastTwo (String c1 (String c2 (String c3 rest))))
        with (lastTwo (String c2 (String c3 rest))).
      change (windows (String c1 (String c2 (String c3 rest))))
        with ((c1, c2, c3) :: windows (String c2 (String c3 rest))).
      rewrite <- app_comm_cons, <- IH. by rewrite !append_String.
Qed.

Lemma validWindows_append charCodeMap textA textB :
  validWindows charCodeMap (textA +:+ textB) =
  validWindows charCodeMap textA ++
  validWindows charCodeMap (seamText textA textB) ++
  validWindows charCodeMap textB.
Proof. unfold validWindows. by rewrite windows_append, !omap_app. Qed.

Lemma length_lastTwo text : (String.length (lastTwo text) ≤ 2)%nat.
Proof.
  induction text as [|c1 rest IH]; [cbn; lia|].
  destruct rest as [|c2 [|c3 rest]]; cbn; [lia..|]. apply IH.
Qed.

Lemma length_firstTwo text : (String.length (firstTwo text) ≤ 2)%nat.
Proof. destruct text as [|c1 [|c2 text]]; cbn; lia. Qed.

Lemma length_windows text : length (windows text) = (String.length text - 2)%nat.
Proof.
  induction text as [|c1 rest IH]; [done|].
  destruct rest as [|c2 [|c3 rest]]; [done..|].
  change (windows (String c1 (String c2 (String c3 rest))))
    with ((c1, c2, c3) :: windows (String c2 (String c3 rest))).
  cbn [length]. rewrite IH. cbn. lia.
Qed.

Lemma length_append textA textB :
  String.length (textA +:+ textB) = (String.length textA + String.length textB)%nat.
Proof.
  induction textA as [|c textA IH]; [done|].
  rewrite append_String. cbn [String.length]. by rewrite IH.
Qed.

Lemma length_validWindows charCodeMap text :
  (length (validWindows charCodeMap text) ≤ length (windows text))%nat.
Proof.
  unfold validWindows. induction (windows text) as [|[[c1 c2] c3] ws IH]; [done|].
  cbn. destruct (trigramHelpers.windowIndices charCodeMap c1 c2 c3); cbn; lia.
Qed.

(** At most two windows straddle the seam. *)
Lemma length_seam_windows charCodeMap textA textB :
  (length (validWindows charCodeMap (seamText textA textB)) ≤ 2)%nat.
Proof.
  etrans; [apply length_validWindows|].
  rewrite length_windows. unfold seamText. rewrite length_append.
  pose proof (length_lastTwo textA). pose proof (length_firstTwo textB). lia.
Qed.

Lemma toLowerCase_append textA textB :
  helpers.toLowerCase (textA +:+ textB) =
  helpers.toLowerCase textA +:+ helpers.toLowerCase textB.
Proof.
  induction textA as [|c textA IH]; [done|].
  rewrite !append_String. cbn [helpers.toLowerCase]. by rewrite IH, append_String.
Qed.

Lemma foldCase_append textA textB ignoreCase :
  helpers.foldCase (textA +:+ textB) ignoreCase =
  helpers.foldCase textA ignoreCase +:+ helpers.foldCase textB ignoreCase.
Proof. destruct ignoreCase; [apply toLowerCase_append|done]. Qed.

Lemma toLowerCase_lastTwo text :
  helpers.toLowerCase (lastTwo text) = lastTwo (helpers.toLowerCase text).
Proof.
  induction text as [|c1 rest IH]; [done|].
  destruct rest as [|c2 [|c3 rest]]; [done..|]. apply IH.
Qed.

Lemma toLowerCase_firstTwo text :
  helpers.toLowerCase (firstTwo text) = firstTwo (helpers.toLowerCase text).
Proof. by destruct text as [|c1 [|c2 text]]. Qed.

Lemma foldCase_seamText textA textB ignoreCase :
  helpers.foldCase (seamText textA textB) ignoreCase =
  seamText (helpers.foldCase textA ignoreCase) (helpers.foldCase textB ignoreCase).
Proof.
  destruct ignoreCase; [|done]. unfold seamText. cbn.
  by rewrite toLowerCase_append, toLowerCase_lastTwo, toLowerCase_firstTwo.
Qed.

(** ** The invariant of the count table *)

Lemma sumRow_replicate_zero n : sumRow (replicate n 0) = 0.
Proof. induction n as [|n IH]; cbn; [done|]. unfold sumRow in IH. lia. Qed.

Lemma sumCells_replicate_zero k n : sumCells (replicate k (replicate n 0)) = 0.
Proof.
  induction k as [|k IH]; cbn; [done|].
  unfold sumCells in IH. rewrite IH, sumRow_replicate_zero. lia.
Qed.

Lemma sumRow_increment row c :
  (c < length row)%nat → sumRow (alter Z.succ c row) = sumRow row + 1.
Proof.
  revert c. induction row as [|x row IH]; intros c Hc; cbn in Hc; [lia|].
  destruct c as [|c]; cbn.
  - unfold sumRow. cbn. lia.
  - unfold sumRow in *. cbn. rewrite IH by lia. lia.
Qed.

Lemma sumCells_increment cells b c row :
  cells !! b = Some row → (c < length row)%nat →
  sumCells (alter (alter Z.succ c) b cells) = sumCells cells + 1.
Proof.
  revert b. induction cells as [|row' cells IH]; intros b Hb Hc; [done|].
  destruct b as [|b]; cbn in Hb.
  - injection Hb as ->. cbn. rewrite sumRow_increment by done.
    unfold sumCells. lia.
  - cbn. unfold sumCells in *. rewrite (IH b) by done. lia.
Qed.

Lemma hasShape_createEmptyTrigramMatrix n :
  hasShape n (trigramHelpers.createEmptyTrigramMatrix n).
Proof.
  unfold hasShape, trigramHelpers.createEmptyTrigramMatrix.
  split; [apply length_replicate|].
  apply Forall_replicate. cbn. split; [apply length_replicate|].
  apply Forall_replicate, length_replicate.
Qed.

Lemma countsInvariant_createEmptyTrigramMatrix n :
  countsInvariant (trigramHelpers.createEmptyTrigramMatrix n).
Proof.
  apply Forall_replicate. split; cbn.
  - apply Forall_replicate, Forall_replicate. lia.
  - by rewrite sumCells_replicate_zero.
Qed.

Lemma hasShape_incrementTrigram n trigramMatrix w :
  hasShape n trigramMatrix →
  hasShape n (trigramHelpers.incrementTrigram trigramMatrix w).
Proof.
  destruct w as [[a b] c]. intros [Hlen Hlayers].
  unfold trigramHelpers.incrementTrigram.
  split; [by rewrite length_alter|].
  apply Forall_alter; [done|].
  intros layer _ [Hrows Hrow]. cbn. split; [by rewrite length_alter|].
  apply Forall_alter; [done|].
  intros row _ Hr. by rewrite length_alter.
Qed.

Lemma countsInvariant_incrementTrigram n trigramMatrix a b c :
  hasShape n trigramMatrix → countsInvariant trigramMatrix →
  (b < n)%nat → (c < n)%nat →
  countsInvariant (trigramHelpers.incrementTrigram trigramMatrix (a, b, c)).
Proof.
  intros [_ Hshape] Hinv Hb Hc.
  unfold trigramHelpers.incrementTrigram.
  apply Forall_alter; [done|].
  intros layer Hlayer [Hnonneg Htotal].
  pose proof (Forall_lookup_1 _ _ _ _ Hshape Hlayer) as [Hrows Hrow].
  destruct (lookup_lt_is_Some_2 (countLayer layer) b) as [row Hlookup]; [lia|].
  pose proof (Forall_lookup_1 _ _ _ _ Hrow Hlookup) as Hlen. cbn in Hlen.
  split; cbn.
  - apply Forall_alter; [done|].
    intros row' _ Hrow'. apply Forall_alter; [done|].
    intros count _ Hcount. lia.
  - rewrite (sumCells_increment _ _ _ row) by (done || lia). lia.
Qed.

Lemma validWindows_in_range n charCodeMap text :
  mapsInto n charCodeMap →
  Forall (λ w, (w.1.2 < n)%nat ∧ (w.2 < n)%nat) (validWindows charCodeMap text).
Proof.
  intros Hmap. unfold validWindows.
  induction (windows text) as [|[[c1 c2] c3] ws IH]; [constructor|].
  cbn. destruct (trigramHelpers.windowIndices charCodeMap c1 c2 c3)
    as [[[a b] c]|] eqn:Hw; [|done].
  apply windowIndices_Some in Hw as (_ & Hb & Hc).
  constructor; [|done]. cbn. split.
  - apply (map_Forall_lookup_1 _ _ _ _ Hmap Hb).
  - apply (map_Forall_lookup_1 _ _ _ _ Hmap Hc).
Qed.

Lemma invariant_foldl_incrementTrigram n ws trigramMatrix :
  Forall (λ w, (w.1.2 < n)%nat ∧ (w.2 < n)%nat) ws →
  hasShape n trigramMatrix → countsInvariant trigramMatrix →
  hasShape n (foldl trigramHelpers.incrementTrigram trigramMatrix ws) ∧
  countsInvariant (foldl trigramHelpers.incrementTrigram trigramMatrix ws).
Proof.
  intros Hws. revert trigramMatrix.
  induction Hws as [|[[a b] c] ws [Hb Hc] _ IH]; intros trigramMatrix Hshape Hinv;
    [done|].
  cbn [foldl]. apply IH.
  - by apply hasShape_incrementTrigram.
  - by apply (countsInvariant_incrementTrigram n).
Qed.

(** Training keeps the shape and the invariant of a table its map fits. *)
Lemma trainTrigramMatrix_invariant n trigramMatrix text charCodeMap chars ignoreCase :
  mapsInto n charCodeMap →
  hasShape n trigramMatrix → countsInvariant trigramMatrix →
  hasShape n
    (trigramHelpers.trainTrigramMatrix trigramMatrix text charCodeMap chars ignoreCase) ∧
  countsInvariant
    (trigramHelpers.trainTrigramMatrix trigramMatrix text charCodeMap chars ignoreCase).
Proof.
  intros Hmap Hshape Hinv. unfold trigramHelpers.trainTrigramMatrix.
  rewrite trainLoop_foldl.
  apply invariant_foldl_incrementTrigram; [|done..].
  by apply validWindows_in_range.
Qed.

(** The alphabet indexer gives every character an index below the number of
    unique characters. *)
Lemma getCharCodeMap_loop_mapsInto chars charCodeMap uniqueChars noDup :
  mapsInto uniqueChars charCodeMap →
  let '(charCodeMap', uniqueChars', _) :=
    helpers.getCharCodeMap_loop chars charCodeMap uniqueChars noDup in
  mapsInto uniqueChars' charCodeMap'.
Proof.
  revert charCodeMap uniqueChars noDup.
  induction chars as [|c chars IH]; intros charCodeMap uniqueChars noDup Hmap; [done|].
  cbn [helpers.getCharCodeMap_loop].
  destruct (charCodeMap !! nat_of_ascii c); [by apply IH|].
  apply IH. apply map_Forall_insert_2; [lia|].
  eapply map_Forall_impl; [done|]. cbn. lia.
Qed.

Lemma getCharCodeMap_mapsInto chars :
  mapsInto (helpers.getCharCodeMap chars).1.2 (helpers.getCharCodeMap chars).1.1.
Proof.
  unfold helpers.getCharCodeMap.
  pose proof (getCharCodeMap_loop_mapsInto chars ∅ 0%nat EmptyString) as Hloop.
  destruct (helpers.getCharCodeMap_loop chars ∅ 0%nat EmptyString) as [[m u] s].
  apply Hloop. apply map_Forall_empty.
Qed.

(** ** The scorer *)

Lemma scoreLoop_foldl trigramMatrix charCodeMap text totalProb numWindows :
  trigramHelpers.scoreLoop trigramMatrix charCodeMap text totalProb numWindows =
  (foldl Qplus totalProb
     (trigramHelpers.transitionProbability trigramMatrix <$>
        validWindows charCodeMap text),
   (numWindows + length (validWindows charCodeMap text))%nat).
Proof.
  revert totalProb numWindows.
  induction text as [|c1 rest IH]; intros totalProb numWindows.
  - cbn. f_equal. lia.
  - destruct rest as [|c2 [|c3 rest]]; [cbn; f_equal; lia..|].
    rewrite validWindows_cons.
    change (trigramHelpers.scoreLoop trigramMatrix charCodeMap
              (String c1 (String c2 (String c3 rest))) totalProb numWindows)
      with (match trigramHelpers.windowIndices charCodeMap c1 c2 c3 with
            | Some w =>
                trigramHelpers.scoreLoop trigramMatrix charCodeMap
                  (String c2 (String c3 rest))
                  (totalProb + trigramHelpers.transitionProbability trigramMatrix w)%Q
                  (S numWindows)
            | None =>
                trigramHelpers.scoreLoop trigramMatrix charCodeMap
                  (String c2 (String c3 rest)) totalProb numWindows
            end).
    destruct (trigramHelpers.windowIndices charCodeMap c1 c2 c3) as [w|];
      rewrite IH; [|done].
    cbn [fmap list_fmap foldl length]. f_equal. lia.
Qed.

Lemma runTextThroughTrigramMatrix_unfold trigramMatrix text charCodeMap ignoreCase :
  let probabilities :=
    trigramHelpers.transitionProbability trigramMatrix <$>
      validWindows charCodeMap (helpers.foldCase text ignoreCase) in
  trigramHelpers.runTextThroughTrigramMatrix trigramMatrix text charCodeMap ignoreCase =
  if decide (length probabilities = 0%nat) then 0%Q
  else (foldl Qplus 0 probabilities / inject_Z (Z.of_nat (length probabilities)))%Q.
Proof.
  intros probabilities. unfold trigramHelpers.runTextThroughTrigramMatrix.
  rewrite scoreLoop_foldl. fold probabilities.
  subst probabilities. rewrite !length_fmap. cbn [Nat.add]. done.
Qed.

Lemma foldl_Qplus_foldr (values : list Q) (start : Q) :
  (foldl Qplus start values == start + foldr Qplus 0 values)%Q.
Proof.
  revert start. induction values as [|x values IH]; intros start; cbn.
  - ring.
  - rewrite IH. ring.
Qed.

Lemma foldl_Qplus_bounds (values : list Q) (start : Q) :
  Forall (λ x, 0 <= x <= 1)%Q values →
  (start <= foldl Qplus start values)%Q ∧
  (foldl Qplus start values <= start + inject_Z (Z.of_nat (length values)))%Q.
Proof.
  intros Hvalues. revert start.
  induction Hvalues as [|x values [Hx0 Hx1] _ IH]; intros start.
  - cbn. split; [apply Qle_refl|]. ring_simplify. apply Qle_refl.
  - cbn [foldl length]. destruct (IH (start + x)%Q) as [IH1 IH2]. split.
    + lra.
    + rewrite Nat2Z.inj_succ, <- Z.add_1_r, inject_Z_plus.
      change (inject_Z 1) with 1%Q. lra.
Qed.

Lemma row_entry_bounds row c count :
  Forall (λ count, 0 ≤ count) row → row !! c = Some count →
  0 ≤ count ≤ sumRow row.
Proof.
  intros Hrow. revert c. induction Hrow as [|x row Hx Hrow IH]; intros c Hc; [done|].
  assert (0 ≤ sumRow row) as Hsum.
  { clear -Hrow. induction Hrow as [|y row Hy _ IH]; cbn; [done|].
    unfold sumRow in *. cbn. lia. }
  destruct c as [|c]; cbn in Hc.
  - injection Hc as ->. unfold sumRow in *. cbn. lia.
  - apply IH in Hc. unfold sumRow in *. cbn. lia.
Qed.

Lemma sumRow_nonneg row : Forall (λ count, 0 ≤ count) row → 0 ≤ sumRow row.
Proof.
  induction 1 as [|y row Hy _ IH]; cbn; [done|]. unfold sumRow in *. cbn. lia.
Qed.

Lemma sumCells_nonneg cells :
  Forall (Forall (λ count, 0 ≤ count)) cells → 0 ≤ sumCells cells.
Proof.
  induction 1 as [|row cells Hrow _ IH]; cbn; [done|].
  apply sumRow_nonneg in Hrow. unfold sumCells in *. lia.
Qed.

Lemma cells_row_bounds cells b row :
  Forall (Forall (λ count, 0 ≤ count)) cells → cells !! b = Some row →
  sumRow row ≤ sumCells cells.
Proof.
  intros Hcells. revert b.
  induction Hcells as [|row' cells Hrow Hcells IH]; intros b Hb; [done|].
  apply sumRow_nonneg in Hrow. apply sumCells_nonneg in Hcells as Hsum.
  destruct b as [|b]; cbn in Hb.
  - injection Hb as ->. unfold sumCells in *. cbn. lia.
  - apply IH in Hb. unfold sumCells in *. cbn. lia.
Qed.

(** Under the invariant a cell is between zero and its layer total. *)
Lemma cell_bounds trigramMatrix a b c total :
  countsInvariant trigramMatrix →
  trigramHelpers.totalAt trigramMatrix a = Some total →
  0 ≤ default 0 (trigramHelpers.cellAt trigramMatrix a b c) ≤ total.
Proof.
  intros Hinv. unfold trigramHelpers.totalAt, trigramHelpers.cellAt.
  destruct (trigramMatrix !! a) as [layer|] eqn:Hlayer; [|done].
  intros [= <-]. cbn.
  destruct (Forall_lookup_1 _ _ _ _ Hinv Hlayer) as [Hnonneg ->].
  destruct (countLayer layer !! b) as [row|] eqn:Hrow; cbn;
    [|split; [done|by apply sumCells_nonneg]].
  pose proof (Forall_lookup_1 _ _ _ _ Hnonneg Hrow) as Hrow_nonneg.
  pose proof (cells_row_bounds _ _ _ Hnonneg Hrow) as Hle.
  destruct (row !! c) as [count|] eqn:Hcount; cbn.
  - pose proof (row_entry_bounds _ _ _ Hrow_nonneg Hcount). lia.
  - apply sumRow_nonneg in Hrow_nonneg. lia.
Qed.

Lemma transitionProbability_bounds trigramMatrix w :
  countsInvariant trigramMatrix →
  (0 <= trigramHelpers.transitionProbability trigramMatrix w <= 1)%Q.
Proof.
  intros Hinv. destruct w as [[a b] c]. unfold trigramHelpers.transitionProbability.
  destruct (trigramHelpers.totalAt trigramMatrix a) as [total|] eqn:Htotal; cbn [default];
    [|rewrite decide_True by done; lra].
  case_decide as Hzero; unfold id in *; [clear; lra|].
  pose proof (cell_bounds _ a b c _ Hinv Htotal) as [Hlow Hhigh].
  assert (0 < inject_Z total)%Q as Hpos.
  { rewrite <- (Zlt_Qlt 0). lia. }
  split.
  - apply Qle_shift_div_l; [done|]. ring_simplify. by rewrite <- (Zle_Qle 0).
  - apply Qle_shift_div_r; [done|]. ring_simplify. by rewrite <- Zle_Qle.
Qed.

Lemma runTextThroughTrigramMatrix_bounds trigramMatrix text charCodeMap ignoreCase :
  countsInvariant trigramMatrix →
  (0 <= trigramHelpers.runTextThroughTrigramMatrix trigramMatrix text charCodeMap ignoreCase <= 1)%Q.
Proof.
  intros Hinv. rewrite runTextThroughTrigramMatrix_unfold.
  set (probabilities := trigramHelpers.transitionProbability trigramMatrix <$> _).
  case_decide as Hlen; [lra|].
  assert (Forall (λ x, 0 <= x <= 1)%Q probabilities) as Hall.
  { apply Forall_fmap, Forall_true. intros w. by apply transitionProbability_bounds. }
  destruct (foldl_Qplus_bounds probabilities 0 Hall) as [Hlow Hhigh].
  assert (0 < inject_Z (Z.of_nat (length probabilities)))%Q as Hpos.
  { rewrite <- (Zlt_Qlt 0). lia. }
  split.
  - apply Qle_shift_div_l; [done|]. lra.
  - apply Qle_shift_div_r; [done|]. lra.
Qed.

Lemma runTextThroughTrigramMatrix_mean trigramMatrix text charCodeMap ignoreCase :
  (trigramHelpers.runTextThroughTrigramMatrix trigramMatrix text charCodeMap ignoreCase ==
   arithmeticMean
     (trigramHelpers.transitionProbability trigramMatrix <$>
        validWindows charCodeMap (helpers.foldCase text ignoreCase)))%Q.
Proof.
  rewrite runTextThroughTrigramMatrix_unfold.
  set (probabilities := trigramHelpers.transitionProbability trigramMatrix <$> _).
  destruct probabilities as [|p probabilities]; [done|].
  rewrite decide_False by done. unfold arithmeticMean.
  rewrite foldl_Qplus_foldr. by rewrite Qplus_0_l.
Qed.

(** ** The calibrator *)




(** The scenario of section 8 with the sides of the README: averages 0.05
    and 0.01 give the midpoint 0.03, and a fraction above zero puts [loose]
    below it and [strict] above. *)
Lemma cutoffsFromAverages_scenario fraction :
  (0 < fraction)%Q →
  let c := trigramHelpers.cutoffsFromAverages fraction (5 # 100) (1 # 100) in
  (avg c == 3 # 100)%Q ∧ (loose c < 3 # 100)%Q ∧ (3 # 100 < strict c)%Q.
Proof.
  intros Hf c. subst c. cbn.
  assert (((5 # 100) + (1 # 100)) / 2 == 3 # 100)%Q as Hmid by reflexivity.
  rewrite !Hmid.
  assert ((5 # 100) - (3 # 100) == 2 # 100)%Q as Hd by reflexivity.
  rewrite !Hd.
  assert (0 < fraction * (2 # 100))%Q as Hpos.
  { apply Qmult_lt_0_compat; [done|reflexivity]. }
  repeat split; lra.
Qed.

(** ** The class over the modelled helpers *)

Section ModelledClass.
Context (fraction : Q) (I : Imports).

Local Abbreviation M := (modelledImports fraction I).

Lemma instanceInvariant_new options :
  instanceInvariant (@new M (Some options)).
Proof.
  unfold instanceInvariant, new. cbn [getCharCodeMap modelledImports].
  pose proof (getCharCodeMap_mapsInto
    (DEFAULT_CHARS_TO_INCLUDE +:+
     default EmptyString (NGramMatrixOptions.additionalCharsToInclude options) +:+
     (if negb (default true (NGramMatrixOptions.ignoreCase options))
      then UPPERCASE_CHARS else EmptyString))) as Hmap.
  destruct (helpers.getCharCodeMap _) as [[map uniqueChars] noDup].
  cbn [fst snd] in Hmap.
  cbn [alphaSize charCodeMap trigramMatrix]. rewrite train_trigramMatrix.
  cbn [alphaSize charCodeMap trigramMatrix charsToInclude ignoreCase
       trainTrigramMatrix createEmptyTrigramMatrix modelledImports].
  split; [done|].
  apply trainTrigramMatrix_invariant; [done|..].
  - apply hasShape_createEmptyTrigramMatrix.
  - apply countsInvariant_createEmptyTrigramMatrix.
Qed.

Lemma instanceInvariant_train this trainingText :
  instanceInvariant this → instanceInvariant (@train M this trainingText).
Proof.
  intros (Hmap & Hshape & Hinv). unfold instanceInvariant.
  split; [done|]. by apply trainTrigramMatrix_invariant.
Qed.

Lemma instanceInvariant_foldl_train texts this :
  instanceInvariant this → instanceInvariant (foldl (@train M) this texts).
Proof.
  revert this. induction texts as [|text texts IH]; intros this Hinv; [done|].
  cbn [foldl]. by apply IH, instanceInvariant_train.
Qed.


(** C3.  [getScore(text)] is the arithmetic mean, over the valid windows of
    the (case-folded) text, of [count / layerTotal]; a window whose layer
    total is zero contributes zero; a text without valid windows, the empty
    string among them, scores zero; and on a table that satisfies its
    invariant the score lies in [0, 1]. *)
Theorem getScore_mean_probability this text :
  let table := trigramMatrix this in
  let ws :=
    validWindows (charCodeMap this) (helpers.foldCase text (ignoreCase this)) in
  (@getScore M this text ==
     arithmeticMean (trigramHelpers.transitionProbability table <$> ws))%Q ∧
  (∀ a b c,
     trigramHelpers.transitionProbability table (a, b, c) =
     let contextTotal := default 0 (trigramHelpers.totalAt table a) in
     if decide (contextTotal = 0) then 0%Q
     else (inject_Z (default 0%Z (trigramHelpers.cellAt table a b c)) /
           inject_Z contextTotal)%Q) ∧
  (ws = [] → @getScore M this text = 0%Q) ∧
  @getScore M this EmptyString = 0%Q ∧
  (countsInvariant table → (0 <= @getScore M this text <= 1)%Q).
Proof.
  intros table ws. split; [|split; [|split; [|split]]].
  - apply runTextThroughTrigramMatrix_mean.
  - done.
  - intros Hws. unfold getScore. cbn [runTextThroughTrigramMatrix modelledImports].
    rewrite runTextThroughTrigramMatrix_unfold. fold ws. by rewrite Hws.
  - unfold getScore. cbn [runTextThroughTrigramMatrix modelledImports].
    rewrite runTextThroughTrigramMatrix_unfold. by destruct (ignoreCase this).
  - intros Hinv. by apply runTextThroughTrigramMatrix_bounds.
Qed.

(** C6.  [train(text)] slides a window over the (case-folded) text: a
    window whose three characters are in the map increments cell
    [(idx c2, idx c3)] of layer [idx c1] and the scan goes on; one increment
    adds exactly 1 to that cell and exactly 1 to that layer's total and
    leaves every other cell and total as it was; a window with a character
    outside the map changes nothing and the scan goes on.  So the table
    after training is the table before with one increment per valid window:
    every cell has grown by the number of windows that map to it and every
    layer total by the number of windows that start in the layer. *)
Theorem train_counts_valid_windows this trainingText :
  let before := trigramMatrix this in
  let after := trigramMatrix (@train M this trainingText) in
  let ws :=
    validWindows (charCodeMap this)
      (helpers.foldCase trainingText (ignoreCase this)) in
  after =
    trigramHelpers.trainLoop before (charCodeMap this)
      (helpers.foldCase trainingText (ignoreCase this)) ∧
  (∀ table c1 c2 c3 rest a b c,
     charCodeMap this !! nat_of_ascii c1 = Some a ∧
     charCodeMap this !! nat_of_ascii c2 = Some b ∧
     charCodeMap this !! nat_of_ascii c3 = Some c →
     trigramHelpers.trainLoop table (charCodeMap this)
       (String c1 (String c2 (String c3 rest))) =
     trigramHelpers.trainLoop
       (trigramHelpers.incrementTrigram table (a, b, c)) (charCodeMap this)
       (String c2 (String c3 rest))) ∧
  (∀ table c1 c2 c3 rest,
     charCodeMap this !! nat_of_ascii c1 = None ∨
     charCodeMap this !! nat_of_ascii c2 = None ∨
     charCodeMap this !! nat_of_ascii c3 = None →
     trigramHelpers.trainLoop table (charCodeMap this)
       (String c1 (String c2 (String c3 rest))) =
     trigramHelpers.trainLoop table (charCodeMap this)
       (String c2 (String c3 rest))) ∧
  (∀ table w a b c,
     trigramHelpers.cellAt (trigramHelpers.incrementTrigram table w) a b c =
       (if decide (w = (a, b, c))
        then (λ n, n + 1) <$> trigramHelpers.cellAt table a b c
        else trigramHelpers.cellAt table a b c) ∧
     trigramHelpers.totalAt (trigramHelpers.incrementTrigram table w) a =
       (if decide (w.1.1 = a)
        then (λ n, n + 1) <$> trigramHelpers.totalAt table a
        else trigramHelpers.totalAt table a)) ∧
  after = foldl trigramHelpers.incrementTrigram before ws ∧
  (∀ a b c,
     trigramHelpers.cellAt after a b c =
     (λ n, n + cellHits ws a b c) <$> trigramHelpers.cellAt before a b c) ∧
  (∀ a,
     trigramHelpers.totalAt after a =
     (λ n, n + layerHits ws a) <$> trigramHelpers.totalAt before a).
Proof.
  intros before after ws.
  assert (after = foldl trigramHelpers.incrementTrigram before ws) as Hafter.
  { subst after. rewrite train_trigramMatrix. apply trainLoop_foldl. }
  split; [done|]. split; [|split; [|split; [|split; [done|]]]].
  - intros table c1 c2 c3 rest a b c Hmapped.
    apply windowIndices_Some in Hmapped.
    change (trigramHelpers.trainLoop table (charCodeMap this)
              (String c1 (String c2 (String c3 rest))))
      with (trigramHelpers.trainLoop
              (trigramHelpers.trainWindow table (charCodeMap this) c1 c2 c3)
              (charCodeMap this) (String c2 (String c3 rest))).
    unfold trigramHelpers.trainWindow. by rewrite Hmapped.
  - intros table c1 c2 c3 rest Hunmapped.
    apply windowIndices_None in Hunmapped.
    change (trigramHelpers.trainLoop table (charCodeMap this)
              (String c1 (String c2 (String c3 rest))))
      with (trigramHelpers.trainLoop
              (trigramHelpers.trainWindow table (charCodeMap this) c1 c2 c3)
              (charCodeMap this) (String c2 (String c3 rest))).
    unfold trigramHelpers.trainWindow. by rewrite Hunmapped.
  - intros table w a b c.
    rewrite cellAt_incrementTrigram, totalAt_incrementTrigram.
    split; [|done]. case_decide; [|done].
    destruct (trigramHelpers.cellAt table a b c); cbn; [f_equal; lia|done].
  - rewrite Hafter. split.
    + intros a b c. apply cellAt_foldl_incrementTrigram.
    + intros a. apply totalAt_foldl_incrementTrigram.
Qed.

(** C7.  After the constructor has created an empty table and after every
    later call of [train], every count of the table is a non-negative
    integer and every layer's [layerTotal] is the sum of the cells of its
    [countLayer]; the table keeps the size of the alphabet. *)
Theorem training_keeps_counts_invariant options texts :
  let this := foldl (@train M) (@new M (Some options)) texts in
  Forall
    (λ layer,
       Forall (Forall (λ count, 0 ≤ count)) (countLayer layer) ∧
       layerTotal layer = sumCells (countLayer layer))
    (trigramMatrix this) ∧
  hasShape (alphaSize this) (trigramMatrix this).
Proof.
  intros this.
  destruct (instanceInvariant_foldl_train texts (@new M (Some options))
              (instanceInvariant_new options)) as (_ & Hshape & Hinv).
  by split.
Qed.

(** C8.  Training on [A] and then on [B] gives the table of one training on
    [A] followed by [B] up to the windows across the seam (those over the last
    two characters of [A] and the first two of [B]), of which there are at
    most two: the table of the single training is that of the two trainings
    with the seam windows counted on top.  Counts accumulate: a training adds
    a non-negative number to every cell, and the two trainings add their
    window counts to the cells that were there. *)
Theorem train_concatenation this textA textB :
  let foldedA := helpers.foldCase textA (ignoreCase this) in
  let foldedB := helpers.foldCase textB (ignoreCase this) in
  let seam :=
    validWindows (charCodeMap this)
      (helpers.foldCase (seamText textA textB) (ignoreCase this)) in
  let twice := trigramMatrix (@train M (@train M this textA) textB) in
  let once := trigramMatrix (@train M this (textA +:+ textB)) in
  once = foldl trigramHelpers.incrementTrigram twice seam ∧
  (length seam ≤ 2)%nat ∧
  (∀ a b c,
     trigramHelpers.cellAt once a b c =
     (λ n, n + cellHits seam a b c) <$> trigramHelpers.cellAt twice a b c) ∧
  (∀ a,
     trigramHelpers.totalAt once a =
     (λ n, n + layerHits seam a) <$> trigramHelpers.totalAt twice a) ∧
  (∀ a b c,
     trigramHelpers.cellAt twice a b c =
     (λ n, n + (cellHits (validWindows (charCodeMap this) foldedA) a b c +
                cellHits (validWindows (charCodeMap this) foldedB) a b c)) <$>
       trigramHelpers.cellAt (trigramMatrix this) a b c) ∧
  (∀ text a b c,
     ∃ added, 0 ≤ added ∧
       trigramHelpers.cellAt (trigramMatrix (@train M this text)) a b c =
       (λ n, n + added) <$> trigramHelpers.cellAt (trigramMatrix this) a b c).
Proof.
  intros foldedA foldedB seam twice once.
  assert (twice =
          foldl trigramHelpers.incrementTrigram
            (foldl trigramHelpers.incrementTrigram (trigramMatrix this)
               (validWindows (charCodeMap this) foldedA))
            (validWindows (charCodeMap this) foldedB)) as Htwice.
  { subst twice. rewrite !train_trigramMatrix.
    cbn [trainTrigramMatrix modelledImports charCodeMap ignoreCase train
         recalibrateCutoffScores set_cutoffScores set_trigramMatrix].
    unfold trigramHelpers.trainTrigramMatrix. by rewrite !trainLoop_foldl. }
  assert (once = foldl trigramHelpers.incrementTrigram twice seam) as Honce.
  { subst once seam. rewrite train_trigramMatrix.
    cbn [trainTrigramMatrix modelledImports].
    unfold trigramHelpers.trainTrigramMatrix.
    rewrite trainLoop_foldl, foldCase_append, validWindows_append.
    rewrite foldCase_seamText. fold foldedA foldedB.
    rewrite !foldl_app, Htwice.
    apply foldl_incrementTrigram_commute. }
  split; [done|]. split.
  { subst seam. rewrite foldCase_seamText. apply length_seam_windows. }
  rewrite Honce. split; [|split; [|split]].
  - intros a b c. apply cellAt_foldl_incrementTrigram.
  - intros a. apply totalAt_foldl_incrementTrigram.
  - intros a b c. rewrite Htwice, !cellAt_foldl_incrementTrigram.
    destruct (trigramHelpers.cellAt (trigramMatrix this) a b c); cbn; f_equal. lia.
  - intros text a b c.
    exists (cellHits
              (validWindows (charCodeMap this)
                 (helpers.foldCase text (ignoreCase this))) a b c).
    split; [apply cellHits_nonneg|].
    rewrite train_trigramMatrix. cbn [trainTrigramMatrix modelledImports].
    unfold trigramHelpers.trainTrigramMatrix.
    rewrite trainLoop_foldl. apply cellAt_foldl_incrementTrigram.
Qed.

End ModelledClass.

(** ** Evaluation on the small instance *)



(** C3, at the same instance and the text "hello". *)
Lemma getScore_mean_probability_witness :
  let M := modelledImports (1 # 2) exampleImports in
  countsInvariant (trigramMatrix exampleMatrix) ∧
  (0 <= @getScore M exampleMatrix "hello" <= 1)%Q ∧
  Qred (@getScore M exampleMatrix "hello") = (26 # 45)%Q.
Proof.
  intros M.
  assert (countsInvariant (trigramMatrix exampleMatrix)) as Hinv.
  { apply (bool_decide_unpack _). vm_compute. exact I. }
  split; [exact Hinv|].
  destruct (getScore_mean_probability (1 # 2) exampleImports exampleMatrix
              "hello") as (_ & _ & _ & _ & Hbounds).
  split; [exact (Hbounds Hinv)|]. vm_compute. reflexivity.
Defined.

(** C2 fails as stated.  The instance was constructed with the samples
    "hello" and "zzqx"; [recalibrateCutoffScores] is then given "there" and
    "zzqx", and [train] is called.  The triple stored afterwards has the
    midpoint 19/70, that of a calibration against "hello" and "zzqx";
    recalibrating the trained table against the samples supplied last would
    give 3/10. *)
Lemma train_ignores_later_samples :
  let later :=
    @recalibrateCutoffScores exampleImports exampleMatrix
      (Some ["there"%string]) (Some ["zzqx"%string]) in
  let trained := @train exampleImports later "hello there" in
  let expected :=
    @getTrigramCutoffScores exampleImports (trigramMatrix trained)
      ["there"%string] ["zzqx"%string] (charCodeMap trained) (ignoreCase trained) in
  let saved :=
    @getTrigramCutoffScores exampleImports (trigramMatrix trained)
      ["hello"%string] ["zzqx"%string] (charCodeMap trained) (ignoreCase trained) in
  Qred (avg (cutoffScores trained)) = (19 # 70)%Q ∧
  Qred (avg expected) = (3 # 10)%Q ∧
  Qred (avg saved) = (19 # 70)%Q ∧
  ¬ (avg (cutoffScores trained) == avg expected)%Q.
Proof.
  intros later trained expected saved.
  split; [vm_compute; reflexivity|].
  split; [vm_compute; reflexivity|].
  split; [vm_compute; reflexivity|].
  vm_compute. discriminate.
Qed.

(** C5 fails as stated.  Recalibrating the constructed instance with an
    empty good-sample set replaces its triple (midpoint 13/45) by another
    one (midpoint 0 in this model of the helper); and two instances that
    share the table but hold different triples get the same triple from
    that recalibration, so they cannot both have kept theirs. *)
Lemma recalibrate_empty_replaces_cutoffs :
  let this1 := exampleMatrix in
  let this2 :=
    @recalibrateCutoffScores exampleImports exampleMatrix
      (Some ["there"%string]) (Some ["zzqx"%string]) in
  let after1 :=
    @recalibrateCutoffScores exampleImports this1 (Some []) (Some ["zzqx"%string]) in
  let after2 :=
    @recalibrateCutoffScores exampleImports this2 (Some []) (Some ["zzqx"%string]) in
  Qred (avg (cutoffScores this1)) = (13 # 45)%Q ∧
  Qred (avg (cutoffScores this2)) = (5 # 18)%Q ∧
  cutoffScores after1 = cutoffScores after2 ∧
  Qred (avg (cutoffScores after1)) = 0%Q ∧
  ¬ (avg (cutoffScores after1) == avg (cutoffScores this1))%Q ∧
  ¬ (avg (cutoffScores after2) == avg (cutoffScores this2))%Q.
Proof.
  intros this1 this2 after1 after2.
  split; [vm_compute; reflexivity|].
  split; [vm_compute; reflexivity|].
  split; [vm_compute; reflexivity|].
  split; [vm_compute; reflexivity|].
  split; vm_compute; discriminate.
Qed.

(** With both arguments omitted the defaults are used, not the saved
    samples: at the constructed instance the two give different midpoints. *)
Lemma recalibrate_omitted_differs_from_saved :
  let defaults := @recalibrateCutoffScores exampleImports exampleMatrix None None in
  let saved :=
    @recalibrateCutoffScores exampleImports exampleMatrix
      (Some (savedGoodSamples exampleMatrix))
      (Some (savedBadSamples exampleMatrix)) in
  savedGoodSamples exampleMatrix = ["hello"%string] ∧
  @DEFAULT_GOOD_SAMPLES exampleImports = ["hello world"%string] ∧
  Qred (avg (cutoffScores defaults)) = (77 # 270)%Q ∧
  Qred (avg (cutoffScores saved)) = (13 # 45)%Q.
Proof.
  intros defaults saved. repeat split; vm_compute; reflexivity.
Qed.

(** A score equal to the selected cut-off is not gibberish: the constructed
    instance with the triple set to the score of "hello". *)
Lemma isGibberish_at_cutoff :
  let score := @getScore exampleImports exampleMatrix "hello" in
  let this :=
    @set_cutoffScores (mkCutoffScore score score score) exampleMatrix in
  @isGibberish exampleImports this "hello" (Some Strict) = false ∧
  @isGibberish exampleImports this "hello" None = false ∧
  @isGibberish exampleImports this "hello" (Some Loose) = false ∧
  @isGibberish exampleImports this "zzqx" None = true.
Proof. intros score this. repeat split; vm_compute; reflexivity. Qed.

(** * Further properties of the class and of the facade *)

(** ** Calls in sequence *)

Section CallProperties.
Context {imports : Imports}.

Lemma perform_configuration this c :
  alphaSize (perform this c) = alphaSize this ∧
  charsToInclude (perform this c) = charsToInclude this ∧
  charCodeMap (perform this c) = charCodeMap this ∧
  ignoreCase (perform this c) = ignoreCase this ∧
  savedGoodSamples (perform this c) = savedGoodSamples this ∧
  savedBadSamples (perform this c) = savedBadSamples this.
Proof. by destruct c. Qed.

Lemma performAll_configuration calls this :
  alphaSize (performAll this calls) = alphaSize this ∧
  charsToInclude (performAll this calls) = charsToInclude this ∧
  charCodeMap (performAll this calls) = charCodeMap this ∧
  ignoreCase (performAll this calls) = ignoreCase this ∧
  savedGoodSamples (performAll this calls) = savedGoodSamples this ∧
  savedBadSamples (performAll this calls) = savedBadSamples this.
Proof.
  revert this. induction calls as [|c calls IH]; intros this; [done|].
  unfold performAll in *. cbn [foldl].
  destruct (IH (perform this c)) as (-> & -> & -> & -> & -> & ->).
  apply perform_configuration.
Qed.

Lemma performAll_trigramMatrix calls this :
  trigramMatrix (performAll this calls) =
  foldl
    (λ table text,
       trainTrigramMatrix table text (charCodeMap this) (charsToInclude this)
         (ignoreCase this))
    (trigramMatrix this) (trainingTexts calls).
Proof.
  revert this. induction calls as [|c calls IH]; intros this; [done|].
  unfold performAll in *. cbn [foldl]. rewrite IH.
  destruct (perform_configuration this c) as (_ & -> & -> & -> & _).
  by destruct c.
Qed.

Lemma perform_cutoffScores this c :
  cutoffScores (perform this c) =
  getTrigramCutoffScores (trigramMatrix (perform this c))
    (samplesOf this c).1 (samplesOf this c).2
    (charCodeMap this) (ignoreCase this).
Proof. by destruct c. Qed.

(** X1.  Of two recalibrations in a row only the second counts: the
    instance is the one the second call alone would have produced.  In
    particular repeating a recalibration changes nothing. *)
Theorem recalibrateCutoffScores_last_call_wins
    this goodSamples1 badSamples1 goodSamples2 badSamples2 :
  recalibrateCutoffScores
    (recalibrateCutoffScores this goodSamples1 badSamples1)
    goodSamples2 badSamples2 =
  recalibrateCutoffScores this goodSamples2 badSamples2 ∧
  recalibrateCutoffScores
    (recalibrateCutoffScores this goodSamples2 badSamples2)
    goodSamples2 badSamples2 =
  recalibrateCutoffScores this goodSamples2 badSamples2.
Proof. split; reflexivity. Qed.

(** X4.  Whatever sequence of [train] and [recalibrateCutoffScores] calls
    is made on an instance, its alphabet size, alphabet string, character
    map, ignore-case flag and saved sample sets stay as they were, and its
    table is the one obtained by running the trainer over the texts of the
    [train] calls in order: recalibrations never touch the table. *)
Theorem performAll_table_and_configuration this calls :
  let final := performAll this calls in
  alphaSize final = alphaSize this ∧
  charsToInclude final = charsToInclude this ∧
  charCodeMap final = charCodeMap this ∧
  ignoreCase final = ignoreCase this ∧
  savedGoodSamples final = savedGoodSamples this ∧
  savedBadSamples final = savedBadSamples this ∧
  trigramMatrix final =
    foldl
      (λ table text,
         trainTrigramMatrix table text (charCodeMap this) (charsToInclude this)
           (ignoreCase this))
      (trigramMatrix this) (trainingTexts calls).
Proof.
  intros final. subst final.
  destruct (performAll_configuration calls this) as (? & ? & ? & ? & ? & ?).
  repeat split; try done. apply performAll_trigramMatrix.
Qed.

(** X5.  After a non-empty sequence of calls the stored triple is decided
    by the last call and the final table alone: it is the calibration of the
    final table against the saved samples when the last call is [train], and
    against the samples of the call (the defaults for omitted ones) when it
    is [recalibrateCutoffScores]. *)
Theorem performAll_cutoffs_from_last_call this calls c :
  let final := performAll this (calls ++ [c]) in
  cutoffScores final =
  getTrigramCutoffScores (trigramMatrix final)
    (samplesOf this c).1 (samplesOf this c).2
    (charCodeMap this) (ignoreCase this).
Proof.
  intros final. subst final. unfold performAll. rewrite foldl_snoc.
  fold (performAll this calls). rewrite perform_cutoffScores.
  destruct (performAll_configuration calls this) as (_ & _ & -> & -> & Hgood & Hbad).
  destruct c; cbn [samplesOf fst snd]; by rewrite ?Hgood, ?Hbad.
Qed.

End CallProperties.

(** ** Recalibration, training and construction *)

Section MoreClassProperties.
Context {imports : Imports}.

Lemma getWordByWordAnalysis_fields this text strictness :
  let wordTokens := cleanAndExtractWordsFromTextToScore text (ignoreCase this) in
  let result := getWordByWordAnalysis this text strictness in
  words result = bundle this <$> wordTokens ∧
  gibberishWords result =
    filter (λ e, isGibberish this (word e) strictness = true)
      (bundle this <$> wordTokens) ∧
  numWords result = length wordTokens ∧
  numGibberishWords result = length (gibberishWords result).
Proof.
  intros wordTokens result. subst result.
  unfold getWordByWordAnalysis. fold wordTokens.
  by rewrite analyseToken_foldl.
Qed.

(** X2.  A recalibration changes the stored triple and nothing else: the
    score of every text is what it was, and the word-by-word analysis lists
    the same words with the same scores. *)
Theorem recalibrateCutoffScores_keeps_scores
    this goodSamples badSamples text strictness :
  let this' := recalibrateCutoffScores this goodSamples badSamples in
  getScore this' text = getScore this text ∧
  words (getWordByWordAnalysis this' text strictness) =
    words (getWordByWordAnalysis this text strictness) ∧
  numWords (getWordByWordAnalysis this' text strictness) =
    numWords (getWordByWordAnalysis this text strictness) ∧
  trigramMatrix this' = trigramMatrix this ∧
  charCodeMap this' = charCodeMap this ∧
  ignoreCase this' = ignoreCase this ∧
  savedGoodSamples this' = savedGoodSamples this ∧
  savedBadSamples this' = savedBadSamples this.
Proof.
  intros this'. split; [done|].
  destruct (getWordByWordAnalysis_fields this' text strictness) as (-> & _ & -> & _).
  destruct (getWordByWordAnalysis_fields this text strictness) as (-> & _ & -> & _).
  done.
Qed.

(** X3.  Right after [train] the stored triple is the calibration against
    the saved samples, so recalibrating with the saved samples then changes
    nothing. *)
Theorem train_then_recalibrate_saved this trainingText :
  let this' := train this trainingText in
  calibratedAgainstSaved this' ∧
  recalibrateCutoffScores this'
    (Some (savedGoodSamples this')) (Some (savedBadSamples this')) = this'.
Proof. intros this'. split; reflexivity. Qed.

(** X6.  An instance built by the constructor from options holds the
    calibration of its table against the sample sets of the options (the
    defaults for omitted ones) with the ignore-case flag of the options
    (true when omitted): the triple that the training inside the constructor
    stored, calibrated against the default samples, is not kept.  So the
    fresh instance is calibrated against its saved samples, and recalibrating
    it with them changes nothing. *)
Theorem new_options_calibrated options :
  let this := new (Some options) in
  cutoffScores this =
    getTrigramCutoffScores (trigramMatrix this)
      (default DEFAULT_GOOD_SAMPLES (NGramMatrixOptions.goodSamples options))
      (default DEFAULT_BAD_SAMPLES (NGramMatrixOptions.badSamples options))
      (charCodeMap this)
      (default true (NGramMatrixOptions.ignoreCase options)) ∧
  calibratedAgainstSaved this ∧
  recalibrateCutoffScores this
    (Some (savedGoodSamples this)) (Some (savedBadSamples this)) = this.
Proof.
  intros this. subst this. unfold calibratedAgainstSaved, new.
  destruct (getCharCodeMap _) as [[map uniqueChars] noDup].
  repeat split.
Qed.

(** X7.  The constructor calls [train] on the initial text before it
    assigns [ignoreCase]: the table of the new instance is the empty table
    trained with the flag unset ([undefined], false here), whatever the
    options say, while the instance then carries the flag of the options
    (true when omitted) and later [train] calls pass that one. *)
Theorem new_options_initial_training options trainingText :
  let this := new (Some options) in
  trigramMatrix this =
    trainTrigramMatrix (createEmptyTrigramMatrix (alphaSize this))
      (default HARRY_POTTER_TRAINING_TEXT
         (NGramMatrixOptions.initialTrainingText options))
      (charCodeMap this) (charsToInclude this) false ∧
  ignoreCase this = default true (NGramMatrixOptions.ignoreCase options) ∧
  trigramMatrix (train this trainingText) =
    trainTrigramMatrix (trigramMatrix this) trainingText
      (charCodeMap this) (charsToInclude this)
      (default true (NGramMatrixOptions.ignoreCase options)).
Proof.
  intros this. subst this. unfold new.
  destruct (getCharCodeMap _) as [[map uniqueChars] noDup].
  repeat split.
Qed.

End MoreClassProperties.

(** ** Classification and the word-by-word analysis *)

Lemma filter_sublist_of_impl {A} (P1 P2 : A → Prop)
    `{!∀ x, Decision (P1 x)} `{!∀ x, Decision (P2 x)} (l : list A) :
  (∀ x, x ∈ l → P1 x → P2 x) →
  filter P1 l `sublist_of` filter P2 l.
Proof.
  induction l as [|x l IH]; intros Himpl; [done|].
  assert (filter P1 l `sublist_of` filter P2 l) as Hrest.
  { apply IH. intros y Hy. apply Himpl. by right. }
  rewrite !filter_cons.
  destruct (decide (P1 x)) as [H1|H1].
  - rewrite decide_True by (apply Himpl; [left|done]). by constructor.
  - destruct (decide (P2 x)); [by constructor|done].
Qed.

Section AnalysisProperties.
Context {imports : Imports}.

Lemma isGibberish_default this text strictness :
  isGibberish this text strictness =
  number_lt (getScore this text)
    (cutoffFor (cutoffScores this) (default Avg strictness)).
Proof. destruct strictness as [strictness|]; apply isGibberish_cutoffFor. Qed.

(** X8.  In the word-by-word analysis the gibberish words are a
    subsequence of the words, so there are at most as many of them; every
    gibberish entry has a score strictly below the cut-off selected by the
    strictness ([Avg] when omitted), and every other entry of [words] has a
    score of at least that cut-off. *)
Theorem getWordByWordAnalysis_counts this text strictness :
  let result := getWordByWordAnalysis this text strictness in
  let cutoff := cutoffFor (cutoffScores this) (default Avg strictness) in
  gibberishWords result `sublist_of` words result ∧
  (numGibberishWords result ≤ numWords result)%nat ∧
  Forall (λ e, (score e < cutoff)%Q) (gibberishWords result) ∧
  (∀ e, e ∈ words result → e ∉ gibberishWords result → (cutoff <= score e)%Q).
Proof.
  intros result cutoff.
  destruct (getWordByWordAnalysis_fields this text strictness)
    as (Hwords & Hgibberish & Hnum & Hnumg).
  fold result in Hwords, Hgibberish, Hnum, Hnumg.
  rewrite Hnumg, Hnum, Hgibberish, Hwords.
  set (wordTokens := cleanAndExtractWordsFromTextToScore text (ignoreCase this)).
  split; [apply sublist_filter|].
  split.
  { etrans; [apply length_filter|]. by rewrite length_fmap. }
  split.
  - apply Forall_forall. intros e [Hg He]%list_elem_of_filter.
    apply list_elem_of_fmap in He as (wToken & -> & _).
    cbn [bundle word score] in *.
    rewrite isGibberish_default in Hg. by apply number_lt_true.
  - intros e He Hnot.
    assert (isGibberish this (word e) strictness = false) as Hfalse.
    { destruct (isGibberish this (word e) strictness) eqn:Hg; [|done].
      exfalso. apply Hnot. by apply list_elem_of_filter. }
    apply list_elem_of_fmap in He as (wToken & -> & _).
    cbn [bundle word score] in *.
    rewrite isGibberish_default in Hfalse. by apply number_lt_false.
Qed.

(** X9.  The analysis is monotone in the cut-off: when the cut-off selected
    by one strictness is at most the one selected by another, the gibberish
    words found at the first are a subsequence of those found at the second,
    and there are at most as many. *)
Theorem getWordByWordAnalysis_monotone this text strictness1 strictness2 :
  (cutoffFor (cutoffScores this) (default Avg strictness1) <=
   cutoffFor (cutoffScores this) (default Avg strictness2))%Q →
  gibberishWords (getWordByWordAnalysis this text strictness1) `sublist_of`
    gibberishWords (getWordByWordAnalysis this text strictness2) ∧
  (numGibberishWords (getWordByWordAnalysis this text strictness1) ≤
   numGibberishWords (getWordByWordAnalysis this text strictness2))%nat.
Proof.
  intros Hle.
  destruct (getWordByWordAnalysis_fields this text strictness1)
    as (_ & Hg1 & _ & Hn1).
  destruct (getWordByWordAnalysis_fields this text strictness2)
    as (_ & Hg2 & _ & Hn2).
  rewrite Hn1, Hn2, Hg1, Hg2.
  assert (filter (λ e, isGibberish this (word e) strictness1 = true)
            (bundle this <$>
               cleanAndExtractWordsFromTextToScore text (ignoreCase this))
          `sublist_of`
          filter (λ e, isGibberish this (word e) strictness2 = true)
            (bundle this <$>
               cleanAndExtractWordsFromTextToScore text (ignoreCase this)))
    as Hsub.
  { apply filter_sublist_of_impl. intros e _.
    rewrite !isGibberish_default, !number_lt_true.
    intros Hlt. by eapply Qlt_le_trans. }
  split; [done|]. by apply sublist_length.
Qed.

(** X10.  When the stored triple is ordered [loose <= avg <= strict], a
    text that is gibberish at [Loose] is gibberish at [Avg], and one that is
    gibberish at [Avg] (or with the strictness omitted) is gibberish at
    [Strict]. *)
Theorem isGibberish_strictness_order this text :
  (loose (cutoffScores this) <= avg (cutoffScores this))%Q →
  (avg (cutoffScores this) <= strict (cutoffScores this))%Q →
  (isGibberish this text (Some Loose) = true →
   isGibberish this text (Some Avg) = true) ∧
  (isGibberish this text (Some Avg) = true →
   isGibberish this text (Some Strict) = true) ∧
  (isGibberish this text None = true →
   isGibberish this text (Some Strict) = true).
Proof.
  intros Hloose Hstrict.
  rewrite !isGibberish_default, !number_lt_true. cbn [default cutoffFor].
  repeat split; intros Hlt; eapply Qlt_le_trans; done.
Qed.

(** X14.  Which words the analysis lists depends on the text and the
    ignore-case flag only: after any sequence of [train] and
    [recalibrateCutoffScores] calls the analysis of a text lists the same
    word tokens, in the same order, and reports the same [numWords]; only
    their scores and classification can differ. *)
Theorem getWordByWordAnalysis_same_words this calls text strictness1 strictness2 :
  let final := performAll this calls in
  word <$> words (getWordByWordAnalysis final text strictness1) =
    word <$> words (getWordByWordAnalysis this text strictness2) ∧
  word <$> words (getWordByWordAnalysis this text strictness2) =
    cleanAndExtractWordsFromTextToScore text (ignoreCase this) ∧
  numWords (getWordByWordAnalysis final text strictness1) =
    numWords (getWordByWordAnalysis this text strictness2).
Proof.
  intros final.
  destruct (getWordByWordAnalysis_fields final text strictness1) as (-> & _ & -> & _).
  destruct (getWordByWordAnalysis_fields this text strictness2) as (-> & _ & -> & _).
  subst final.
  destruct (performAll_configuration calls this) as (_ & _ & _ & -> & _).
  assert (∀ (that : TrigramMatrix) (wordTokens : list string),
            word <$> (bundle that <$> wordTokens) = wordTokens) as Hwords.
  { intros that wordTokens. rewrite <- list_fmap_compose.
    induction wordTokens as [|wToken wordTokens IH]; [done|].
    cbn. by rewrite IH. }
  by rewrite !Hwords.
Qed.

End AnalysisProperties.

(** ** The facade over the trigram engine *)

Section FacadeProperties.
Context {imports : Imports} {bigram : BigramImports}.

(** X11.  For a scorer over the trigram engine, the score and the triple
    that [getTextScoreAndCutoffs] returns explain the verdict of
    [isGibberish]: the text is gibberish exactly when the returned score is
    strictly below the returned cut-off of the strictness ([Avg] when
    omitted); the returned parts are those of [getTextScore] and
    [getCutoffScores]. *)
Theorem TextScorer_verdict_explained (m : TrigramMatrix) text strictness :
  let this := TextScorer.mk (NGramMatrix.OfTrigramMatrix m) in
  let result := TextScorer.getTextScoreAndCutoffs this text in
  (TextScorer.isGibberish this text strictness = true ↔
     (TextScorer.score result <
      cutoffFor (TextScorer.cutoffs result) (default Avg strictness))%Q) ∧
  TextScorer.score result = TextScorer.getTextScore this text ∧
  TextScorer.cutoffs result = TextScorer.getCutoffScores this.
Proof.
  intros this result. split; [|done].
  unfold TextScorer.isGibberish. cbn.
  rewrite isGibberish_cutoffFor. apply number_lt_true.
Qed.

(** X12.  For a scorer over the trigram engine, [getDetailedWordInfo] and
    [isGibberish] agree word by word: the gibberish words of the analysis
    are exactly the analysed words that [isGibberish] of the facade
    classifies as gibberish at the same strictness, also when the strictness
    is omitted in both calls; and [numGibberishWords] counts them. *)
Theorem TextScorer_word_info_agrees (m : TrigramMatrix) text strictness :
  let this := TextScorer.mk (NGramMatrix.OfTrigramMatrix m) in
  let result := TextScorer.getDetailedWordInfo this text strictness in
  gibberishWords result =
    filter (λ e, TextScorer.isGibberish this (word e) strictness = true)
      (words result) ∧
  numGibberishWords result =
    length
      (filter (λ e, TextScorer.isGibberish this (word e) strictness = true)
         (words result)).
Proof.
  intros this result.
  assert (gibberishWords result =
          filter (λ e, TextScorer.isGibberish this (word e) strictness = true)
            (words result)) as Hg.
  { subst result this. unfold TextScorer.getDetailedWordInfo. cbn.
    destruct (getWordByWordAnalysis_fields m text strictness) as (-> & -> & _).
    apply list_filter_iff. intros e. unfold TextScorer.isGibberish. cbn.
    by rewrite isGibberish_default, isGibberish_cutoffFor. }
  split; [done|]. rewrite <- Hg. subst result this.
  unfold TextScorer.getDetailedWordInfo. cbn.
  by destruct (getWordByWordAnalysis_fields m text strictness) as (_ & _ & _ & ->).
Qed.

(** X13.  For a scorer over the trigram engine: [recalibrateCutoffScores]
    of the facade always calibrates against the two sample sets it is given
    (the defaults cannot be selected through it); [trainWithEnglishText]
    leaves the calibration against the samples saved at construction; and a
    recalibration followed by a training gives the scorer that the training
    alone gives. *)
Theorem TextScorer_recalibrate_then_train (m : TrigramMatrix)
    goodSamples badSamples text :
  let this := TextScorer.mk (NGramMatrix.OfTrigramMatrix m) in
  TextScorer.getCutoffScores
    (TextScorer.recalibrateCutoffScores this goodSamples badSamples) =
    getTrigramCutoffScores (trigramMatrix m) goodSamples badSamples
      (charCodeMap m) (ignoreCase m) ∧
  TextScorer.getCutoffScores (TextScorer.trainWithEnglishText this text) =
    getTrigramCutoffScores
      (trainTrigramMatrix (trigramMatrix m) text (charCodeMap m)
         (charsToInclude m) (ignoreCase m))
      (savedGoodSamples m) (savedBadSamples m)
      (charCodeMap m) (ignoreCase m) ∧
  TextScorer.trainWithEnglishText
    (TextScorer.recalibrateCutoffScores this goodSamples badSamples) text =
  TextScorer.trainWithEnglishText this text.
Proof. intros this. repeat split. Qed.

End FacadeProperties.

(** ** Evaluation of the further properties *)

(** X9, at the constructed instance holding the triple the README prints,
    for the strictness levels [Loose] and [Strict]. *)
Lemma getWordByWordAnalysis_monotone_witness :
  let this := @set_cutoffScores documentedCutoffScores exampleMatrix in
  (cutoffFor (cutoffScores this) (default Avg (Some Loose)) <=
   cutoffFor (cutoffScores this) (default Avg (Some Strict)))%Q ∧
  (numGibberishWords
     (@getWordByWordAnalysis exampleImports this "hello zzqx there" (Some Loose)) ≤
   numGibberishWords
     (@getWordByWordAnalysis exampleImports this "hello zzqx there" (Some Strict)))%nat.
Proof.
  intros this.
  assert (cutoffFor (cutoffScores this) (default Avg (Some Loose)) <=
          cutoffFor (cutoffScores this) (default Avg (Some Strict)))%Q as Hle
    by (vm_compute; discriminate).
  split; [exact Hle|].
  exact (proj2 (@getWordByWordAnalysis_monotone exampleImports this
                  "hello zzqx there" (Some Loose) (Some Strict) Hle)).
Defined.

(** X10, at the same instance and the text "zzqx". *)
Lemma isGibberish_strictness_order_witness :
  let this := @set_cutoffScores documentedCutoffScores exampleMatrix in
  (loose (cutoffScores this) <= avg (cutoffScores this))%Q ∧
  (avg (cutoffScores this) <= strict (cutoffScores this))%Q ∧
  (@isGibberish exampleImports this "zzqx" (Some Loose) = true →
   @isGibberish exampleImports this "zzqx" (Some Avg) = true).
Proof.
  intros this.
  assert (loose (cutoffScores this) <= avg (cutoffScores this))%Q as Hloose
    by (vm_compute; discriminate).
  assert (avg (cutoffScores this) <= strict (cutoffScores this))%Q as Hstrict
    by (vm_compute; discriminate).
  split; [exact Hloose|]. split; [exact Hstrict|].
  exact (proj1 (@isGibberish_strictness_order exampleImports this "zzqx"
                  Hloose Hstrict)).
Defined.
